(** * Panadería El Trigal: the sales and ledger engine

    A shallow embedding of [services/db.ts] (class [DBService]) together with
    the view code that calls into it (the cart, checkout, hold and resume and
    dispatch handlers of the seller view, the dispatch card, the edit dialog
    of the sales analytics view), and the
    properties of the stock / debt / sale-ledger bookkeeping that follow from
    the code.

    Modelling conventions.
    - A JavaScript [number] is an exact integer of [Z] (an amount in the
      smallest currency unit, a quantity of loaves).  The rounding of IEEE
      doubles and the value NaN are outside the model.
    - A Supabase table is a finite map from the [id] column, its primary key,
      to the row.  [.eq('id', k).single()] is a lookup, [.update(..).eq('id', k)]
      an [alter], [.delete().eq('id', k)] a [delete], [.upsert(row)] an
      [insert] of the row when the key is free and otherwise a write of the
      columns the row carries, and [.insert(row)] reports an error when the
      key is taken.
      The store is reachable: no other error is ever reported.
    - [crypto.randomUUID()] and [new Date().toISOString()] are drawn by the
      environment; the drawn values are passed to the operation that asks for
      them ([uuid], [now]).
    - An [async] method is a state transformer over the store that either
      returns or throws; what it wrote before throwing stays written.
    - The settings row and the backup export take no part in sales and are
      left out, and so is everything that reads the wall clock's calendar
      or divides (the reports by day, the averages, the projections). *)

From Stdlib Require Import ZArith String OrdersEx.
From stdpp Require Import base option list strings gmap fin_maps sorting.

Local Open Scope string_scope.
Local Open Scope Z_scope.

(** ** types.ts *)

Module Product.
Record t : Type := mk {
  id : string;
  name : string;
  priceRetail : Z;
  priceWholesale : Z;
  cost : Z;
  stock : Z;
  category : string;
  image : option string
}.

(** The row after [.update({ stock: v })]. *)
Definition set_stock (v : Z) (p : t) : t :=
  {| id := id p; name := name p; priceRetail := priceRetail p;
     priceWholesale := priceWholesale p; cost := cost p; stock := v;
     category := category p; image := image p |}.

(** [.upsert(u)] onto a stored row: every column present in [u] is
    overwritten; the optional [image], when [u] has none, keeps its stored
    value. *)
Definition patch (u old : t) : t :=
  {| id := id u; name := name u; priceRetail := priceRetail u;
     priceWholesale := priceWholesale u; cost := cost u; stock := stock u;
     category := category u;
     image := match image u with Some i => Some i | None => image old end |}.
End Product.

Module Client.
Record t : Type := mk {
  id : string;
  name : string;
  businessName : string;
  debt : Z;
  creditLimit : Z;
  address : string
}.

(** The row after [.update({ debt: v })]. *)
Definition set_debt (v : Z) (c : t) : t :=
  {| id := id c; name := name c; businessName := businessName c; debt := v;
     creditLimit := creditLimit c; address := address c |}.

(** [.upsert(u)] onto a stored row: a client has no optional column, so
    every column is overwritten. *)
Definition patch (u old : t) : t := u.
End Client.

(** [CartItem extends Product]: the product's columns and a quantity. *)
Module CartItem.
Record t : Type := mk {
  product : Product.t;
  quantity : Z
}.
End CartItem.

Module SuspendedSale.
Record t : Type := mk {
  id : string;
  customerName : string;
  items : list CartItem.t;
  date : string;
  total : Z
}.
End SuspendedSale.

Inductive SaleType : Type := pos | dispatch.

Module SaleItem.
Record t : Type := mk {
  productId : string;
  productName : string;
  quantity : Z;
  unitPrice : Z;
  subtotal : Z
}.
End SaleItem.

Module Sale.
Record t : Type := mk {
  id : string;
  date : string;
  type : SaleType;
  items : list SaleItem.t;
  totalAmount : Z;
  clientId : option string;
  clientName : option string;
  sellerId : string
}.

(** [.update(u)] on a stored row: every column present in [u] is overwritten;
    an optional property that is absent from [u] leaves its column as it is. *)
Definition patch (u old : t) : t :=
  {| id := id u; date := date u; type := type u; items := items u;
     totalAmount := totalAmount u;
     clientId := match clientId u with Some c => Some c | None => clientId old end;
     clientName := match clientName u with Some c => Some c | None => clientName old end;
     sellerId := sellerId u |}.
End Sale.

(** ** The backing store *)

Record Store : Type := mkStore {
  products : gmap string Product.t;
  clients : gmap string Client.t;
  sales : gmap string Sale.t;
  suspended_sales : gmap string SuspendedSale.t
}.

Definition with_products (f : gmap string Product.t → gmap string Product.t) (s : Store) : Store :=
  {| products := f (products s); clients := clients s; sales := sales s;
     suspended_sales := suspended_sales s |}.

Definition with_clients (f : gmap string Client.t → gmap string Client.t) (s : Store) : Store :=
  {| products := products s; clients := f (clients s); sales := sales s;
     suspended_sales := suspended_sales s |}.

Definition with_sales (f : gmap string Sale.t → gmap string Sale.t) (s : Store) : Store :=
  {| products := products s; clients := clients s; sales := f (sales s);
     suspended_sales := suspended_sales s |}.

Definition with_suspended_sales
  (f : gmap string SuspendedSale.t → gmap string SuspendedSale.t) (s : Store) : Store :=
  {| products := products s; clients := clients s; sales := sales s;
     suspended_sales := f (suspended_sales s) |}.

(** ** Methods that return or throw *)

Inductive error : Type :=
| JsError (message : string)      (* [throw new Error(message)] *)
| PostgrestError (code : string). (* the [error] of a Supabase response *)

Inductive result (A : Type) : Type :=
| Ok (a : A)
| Throw (e : error).
Arguments Ok {A} a.
Arguments Throw {A} e.

Definition M (St A : Type) : Type := St → St * result A.

Definition ret {St A} (a : A) : M St A := λ s, (s, Ok a).
Definition throw {St A} (e : error) : M St A := λ s, (s, Throw e).
Definition bind {St A B} (m : M St A) (k : A → M St B) : M St B :=
  λ s, match m s with
       | (s', Ok a) => k a s'
       | (s', Throw e) => (s', Throw e)
       end.
Definition gets {St A} (f : St → A) : M St A := λ s, (s, Ok (f s)).
Definition modify {St} (f : St → St) : M St unit := λ s, (f s, Ok tt).

Notation "'let*' x ':=' m 'in' k" := (bind m (λ x, k))
  (at level 10, x name, m at level 100, k at level 200, only parsing).
Notation "'do' m 'then' k" := (bind m (λ _, k))
  (at level 10, m at level 100, k at level 200, only parsing).

(** [for (const x of xs) { await body(x) }] *)
Fixpoint for_of {St A} (xs : list A) (body : A → M St unit) : M St unit :=
  match xs with
  | [] => ret tt
  | x :: xs' => do body x then for_of xs' body
  end.

(** [try { body } catch (e) { handler }] *)
Definition try_catch {St A} (body : M St A) (handler : error → M St A) : M St A :=
  λ s, match body s with
       | (s', Ok a) => (s', Ok a)
       | (s', Throw e) => handler e s'
       end.

Definition DB (A : Type) : Type := M Store A.

(** ** The Supabase client, one definition per query shape the code uses *)

Module supabase.
Section table.
Context {R : Type}.

(** [.select(..).eq('id', k).single()]: [data] is the row, or [null]. *)
Definition select_single (tbl : Store → gmap string R) (k : string) : DB (option R) :=
  gets (λ s, tbl s !! k).

(** [.select('*')]: [data] is the array of rows. *)
Definition select_all (tbl : Store → gmap string R) : DB (list R) :=
  gets (λ s, (map_to_list (tbl s)).*2).

(** [.select('*').order(col, { ascending: false })]: the rows, sorted by
    the relation [desc] that puts the larger [col] first. *)
Definition select_all_order (tbl : Store → gmap string R)
    (desc : relation R) `{!RelDecision desc} : DB (list R) :=
  gets (λ s, merge_sort desc (map_to_list (tbl s)).*2).

(** [.insert(row)]: [{ error }], set when the primary key is already taken. *)
Definition insert (tbl : Store → gmap string R)
    (upd : (gmap string R → gmap string R) → Store → Store)
    (key : R → string) (row : R) : DB (option error) :=
  λ s, match tbl s !! key row with
       | Some _ => (s, Ok (Some (PostgrestError "23505")))
       | None => (upd (base.insert (key row) row) s, Ok None)
       end.

(** [.upsert(row)]: the row is added when its key is free; when the key is
    taken, the stored row gets the columns the given row carries ([patch]). *)
Definition upsert (upd : (gmap string R → gmap string R) → Store → Store)
    (key : R → string) (patch : R → R → R) (row : R) : DB (option error) :=
  λ s, (upd (partial_alter
               (λ stored, match stored with
                          | Some old => Some (patch row old)
                          | None => Some row
                          end) (key row)) s, Ok None).

(** [.update(patch).eq('id', k)]: rows that match are patched; none is no error. *)
Definition update_eq (upd : (gmap string R → gmap string R) → Store → Store)
    (patch : R → R) (k : string) : DB (option error) :=
  λ s, (upd (alter patch k) s, Ok None).

(** [.delete().eq('id', k)] *)
Definition delete_eq (upd : (gmap string R → gmap string R) → Store → Store)
    (k : string) : DB (option error) :=
  λ s, (upd (delete k) s, Ok None).

(** [.select('id').limit(1)]: at most one row of the table. *)
Definition select_limit_1 (tbl : Store → gmap string R) : DB (list R) :=
  gets (λ s, take 1 (map_to_list (tbl s)).*2).

(** [.insert(rows)] with an array: one statement, so either every row is
    added or, when a key is taken or given twice, none is and [error] is set. *)
Definition insert_many (tbl : Store → gmap string R)
    (upd : (gmap string R → gmap string R) → Store → Store)
    (key : R → string) (rows : list R) : DB (option error) :=
  λ s, if decide (NoDup (key <$> rows))
       then if forallb (λ row, match tbl s !! key row with
                               | None => true
                               | Some _ => false
                               end) rows
            then (upd (λ m, foldl (λ m row, <[key row := row]> m) m rows) s, Ok None)
            else (s, Ok (Some (PostgrestError "23505")))
       else (s, Ok (Some (PostgrestError "23505"))).
End table.
End supabase.

(** ** services/db.ts *)

Module DBService.

Definition getProducts : DB (list Product.t) := supabase.select_all products.

Definition updateProduct (updatedProduct : Product.t) : DB unit :=
  let* error := supabase.upsert with_products Product.id Product.patch updatedProduct in
  match error with Some e => throw e | None => ret tt end.

Definition deleteProduct (id : string) : DB unit :=
  let* error := supabase.delete_eq with_products id in
  match error with Some e => throw e | None => ret tt end.

Definition getClients : DB (list Client.t) := supabase.select_all clients.

Definition updateClient (updatedClient : Client.t) : DB unit :=
  let* error := supabase.upsert with_clients Client.id Client.patch updatedClient in
  match error with Some e => throw e | None => ret tt end.

Definition registerClientPayment (clientId : string) (amount : Z) : DB unit :=
  let* client := supabase.select_single clients clientId in
  match client with
  | None => throw (JsError "Cliente no encontrado")
  | Some client =>
      let newDebt := Z.max 0 (Client.debt client - amount) in
      let* error := supabase.update_eq with_clients (Client.set_debt newDebt) clientId in
      match error with Some e => throw e | None => ret tt end
  end.

Definition getSuspendedSales : DB (list SuspendedSale.t) :=
  supabase.select_all suspended_sales.

Definition addSuspendedSale (sale : SuspendedSale.t) : DB unit :=
  do supabase.insert suspended_sales with_suspended_sales SuspendedSale.id sale then
  ret tt.

Definition removeSuspendedSale (id : string) : DB unit :=
  do supabase.delete_eq with_suspended_sales id then
  ret tt.

(** [.order('date', { ascending: false })]: the later date first. *)
Definition date_desc (a b : Sale.t) : Prop :=
  String.leb (Sale.date b) (Sale.date a) = true.

#[global] Instance date_desc_dec : RelDecision date_desc.
Proof. intros a b. unfold date_desc. apply _. Defined.

Definition getSales : DB (list Sale.t) :=
  supabase.select_all_order sales date_desc.

Definition updateSale (updatedSale : Sale.t) : DB unit :=
  let* error := supabase.update_eq with_sales (Sale.patch updatedSale) (Sale.id updatedSale) in
  match error with Some e => throw e | None => ret tt end.

Definition decrementStock (productId : string) (quantity : Z) : DB unit :=
  let* prod := supabase.select_single products productId in
  match prod with
  | Some prod =>
      do supabase.update_eq with_products
           (Product.set_stock (Product.stock prod - quantity)) productId then
      ret tt
  | None => ret tt
  end.

(** [items.reduce((sum, item) => sum + item.subtotal, 0)] *)
Definition totalAmount_of (items : list SaleItem.t) : Z :=
  foldl (λ sum item, sum + SaleItem.subtotal item) 0 items.

Definition createRetailSale (uuid now : string)
    (items : list SaleItem.t) (sellerId : string) : DB unit :=
  let saleId := uuid in
  let totalAmount := totalAmount_of items in
  let sale :=
    {| Sale.id := saleId; Sale.date := now; Sale.type := pos; Sale.items := items;
       Sale.totalAmount := totalAmount; Sale.clientId := None;
       Sale.clientName := None; Sale.sellerId := sellerId |} in
  let* saleError := supabase.insert sales with_sales Sale.id sale in
  match saleError with
  | Some e => throw e
  | None =>
      for_of items (λ item,
        decrementStock (SaleItem.productId item) (SaleItem.quantity item))
  end.

(** [a || b] on strings: the empty string is falsy. *)
Definition or_else (a b : string) : string :=
  if decide (a = "") then b else a.

Definition createDispatchSale (uuid now : string) (clientId : string)
    (items : list SaleItem.t) (sellerId : string) : DB unit :=
  let saleId := uuid in
  let totalAmount := totalAmount_of items in
  let* client := supabase.select_single clients clientId in
  match client with
  | None => throw (JsError "Cliente no existe")
  | Some client =>
      let sale :=
        {| Sale.id := saleId; Sale.date := now; Sale.type := dispatch;
           Sale.items := items; Sale.totalAmount := totalAmount;
           Sale.clientId := Some clientId;
           Sale.clientName :=
             Some (or_else (Client.businessName client) (Client.name client));
           Sale.sellerId := sellerId |} in
      let* saleError := supabase.insert sales with_sales Sale.id sale in
      match saleError with
      | Some e => throw e
      | None =>
          do supabase.update_eq with_clients
               (Client.set_debt (Client.debt client + totalAmount)) clientId then
          for_of items (λ item,
            decrementStock (SaleItem.productId item) (SaleItem.quantity item))
      end
  end.

(** [init], for the [INITIAL_PRODUCTS] of constants.ts: an empty catalog is
    seeded; the outcome of the seeding insert is not looked at. *)
Definition init (INITIAL_PRODUCTS : list Product.t) : DB unit :=
  let* data := supabase.select_limit_1 products in
  match data with
  | [] =>
      do supabase.insert_many products with_products Product.id INITIAL_PRODUCTS then
      ret tt
  | _ :: _ => ret tt
  end.

End DBService.

(** ** View handlers

    A handler runs over the view's React state and the store.  The answers of
    [window.confirm] and [prompt] are arguments of the handler. *)

Definition App (V A : Type) : Type := M (V * Store) A.

Definition db {V A} (m : DB A) : App V A :=
  λ vs, match m vs.2 with (s', r) => ((vs.1, s'), r) end.

Definition set_state {V} (f : V → V) : App V unit :=
  modify (λ vs, (f vs.1, vs.2)).

Definition get_state {V A} (f : V → A) : App V A :=
  gets (λ vs, f vs.1).

(** *** components/SellerView.tsx *)

Module SellerView.

Record state : Type := mk {
  products : list Product.t;
  clients : list Client.t;
  cart : list CartItem.t;
  isCartOpen : bool;
  showPaymentModal : bool;
  suspendedSales : list SuspendedSale.t;
  showSuspendedModal : bool
}.

Definition setProducts (p : list Product.t) (v : state) : state :=
  {| products := p; clients := clients v; cart := cart v; isCartOpen := isCartOpen v;
     showPaymentModal := showPaymentModal v; suspendedSales := suspendedSales v;
     showSuspendedModal := showSuspendedModal v |}.
Definition setClients (c : list Client.t) (v : state) : state :=
  {| products := products v; clients := c; cart := cart v; isCartOpen := isCartOpen v;
     showPaymentModal := showPaymentModal v; suspendedSales := suspendedSales v;
     showSuspendedModal := showSuspendedModal v |}.
Definition setCart (c : list CartItem.t) (v : state) : state :=
  {| products := products v; clients := clients v; cart := c; isCartOpen := isCartOpen v;
     showPaymentModal := showPaymentModal v; suspendedSales := suspendedSales v;
     showSuspendedModal := showSuspendedModal v |}.
Definition setIsCartOpen (b : bool) (v : state) : state :=
  {| products := products v; clients := clients v; cart := cart v; isCartOpen := b;
     showPaymentModal := showPaymentModal v; suspendedSales := suspendedSales v;
     showSuspendedModal := showSuspendedModal v |}.
Definition setShowPaymentModal (b : bool) (v : state) : state :=
  {| products := products v; clients := clients v; cart := cart v; isCartOpen := isCartOpen v;
     showPaymentModal := b; suspendedSales := suspendedSales v;
     showSuspendedModal := showSuspendedModal v |}.
Definition setSuspendedSales (l : list SuspendedSale.t) (v : state) : state :=
  {| products := products v; clients := clients v; cart := cart v; isCartOpen := isCartOpen v;
     showPaymentModal := showPaymentModal v; suspendedSales := l;
     showSuspendedModal := showSuspendedModal v |}.
Definition setShowSuspendedModal (b : bool) (v : state) : state :=
  {| products := products v; clients := clients v; cart := cart v; isCartOpen := isCartOpen v;
     showPaymentModal := showPaymentModal v; suspendedSales := suspendedSales v;
     showSuspendedModal := b |}.

Definition loadData : App state unit :=
  let* p := db DBService.getProducts in
  let* c := db DBService.getClients in
  let* susp := db DBService.getSuspendedSales in
  do set_state (setProducts p) then
  do set_state (setClients c) then
  set_state (setSuspendedSales susp).

(** [cart.reduce((sum, item) => sum + (item.priceRetail * item.quantity), 0)] *)
Definition cartTotal (cart : list CartItem.t) : Z :=
  foldl (λ sum item,
           sum + Product.priceRetail (CartItem.product item) * CartItem.quantity item)
        0 cart.

Definition saleItems_of (cart : list CartItem.t) : list SaleItem.t :=
  (λ item,
     {| SaleItem.productId := Product.id (CartItem.product item);
        SaleItem.productName := Product.name (CartItem.product item);
        SaleItem.quantity := CartItem.quantity item;
        SaleItem.unitPrice := Product.priceRetail (CartItem.product item);
        SaleItem.subtotal :=
          Product.priceRetail (CartItem.product item) * CartItem.quantity item |})
  <$> cart.

Definition handleCheckout (uuid now userId : string) : App state unit :=
  let* cart := get_state cart in
  do db (DBService.createRetailSale uuid now (saleItems_of cart) userId) then
  do set_state (setCart []) then
  do set_state (setShowPaymentModal false) then
  do set_state (setIsCartOpen false) then
  loadData.

(** [answer] is what [prompt] returns ([None] for a cancelled dialog), [ms]
    is [Date.now().toString()] and [now] is [new Date().toISOString()]. *)
Definition handleSuspendSale (answer : option string) (ms now : string) : App state unit :=
  let* cart := get_state cart in
  match cart with
  | [] => ret tt
  | _ :: _ =>
      match answer with
      | None => ret tt
      | Some refName =>
          if decide (refName = "") then ret tt
          else
            let suspended :=
              {| SuspendedSale.id := ms; SuspendedSale.customerName := refName;
                 SuspendedSale.items := cart; SuspendedSale.date := now;
                 SuspendedSale.total := cartTotal cart |} in
            do db (DBService.addSuspendedSale suspended) then
            do set_state (setCart []) then
            loadData
      end
  end.

(** [confirm] is the answer [window.confirm] gives when it is asked. *)
Definition handleResumeSale (confirm : bool) (suspended : SuspendedSale.t) : App state unit :=
  let* cart := get_state cart in
  if match cart with [] => false | _ :: _ => negb confirm end then ret tt
  else
    do set_state (setCart (SuspendedSale.items suspended)) then
    do db (DBService.removeSuspendedSale (SuspendedSale.id suspended)) then
    do loadData then
    set_state (setShowSuspendedModal false).

(** The updater [addToCart] hands to [setCart]. *)
Definition addToCart (product : Product.t) (prev : list CartItem.t) : list CartItem.t :=
  match List.find (λ item, bool_decide (Product.id (CartItem.product item)
                                        = Product.id product)) prev with
  | Some _ =>
      (λ item,
         if decide (Product.id (CartItem.product item) = Product.id product)
         then {| CartItem.product := CartItem.product item;
                 CartItem.quantity := CartItem.quantity item + 1 |}
         else item) <$> prev
  | None => prev ++ [ {| CartItem.product := product; CartItem.quantity := 1 |} ]
  end.

(** The updater [updateCartQty] hands to [setCart]. *)
Definition updateCartQty (id : string) (delta : Z) (prev : list CartItem.t) : list CartItem.t :=
  filter (λ item, 0 < CartItem.quantity item)
    ((λ item,
        if decide (Product.id (CartItem.product item) = id)
        then {| CartItem.product := CartItem.product item;
                CartItem.quantity := Z.max 0 (CartItem.quantity item + delta) |}
        else item) <$> prev).

(** [cart.reduce((sum, item) => sum + item.quantity, 0)] *)
Definition cartItemCount (cart : list CartItem.t) : Z :=
  foldl (λ sum item, sum + CartItem.quantity item) 0 cart.

Definition handleDispatchConfirm (uuid now userId clientId : string)
    (items : list SaleItem.t) : App state unit :=
  try_catch
    (do db (DBService.createDispatchSale uuid now clientId items userId) then
     loadData)
    (λ _, ret tt).

End SellerView.

(** *** components/SalesAnalytics.tsx, the edit dialog *)

Module SalesAnalytics.

Record state : Type := mk {
  selectedSale : option Sale.t;
  isEditingSale : bool;
  editItems : list SaleItem.t
}.

Definition openEditModal (sale : Sale.t) : App state unit :=
  set_state (λ _, {| selectedSale := Some sale; isEditingSale := true;
                     editItems := Sale.items sale |}).

Definition with_items_total (items : list SaleItem.t) (total : Z) (s : Sale.t) : Sale.t :=
  {| Sale.id := Sale.id s; Sale.date := Sale.date s; Sale.type := Sale.type s;
     Sale.items := items; Sale.totalAmount := total;
     Sale.clientId := Sale.clientId s; Sale.clientName := Sale.clientName s;
     Sale.sellerId := Sale.sellerId s |}.

Definition saveEditedSale : App state unit :=
  let* selectedSale := get_state selectedSale in
  match selectedSale with
  | None => ret tt
  | Some selectedSale =>
      let* editItems := get_state editItems in
      let filteredItems := filter (λ i, 0 < SaleItem.quantity i) editItems in
      let newTotal := foldl (λ acc curr, acc + SaleItem.subtotal curr) 0 filteredItems in
      let updatedSale := with_items_total filteredItems newTotal selectedSale in
      do db (DBService.updateSale updatedSale) then
      set_state (λ v, {| selectedSale := None; isEditingSale := false;
                         editItems := editItems |})
  end.

(** The updater [updateEditItemQty] hands to [setEditItems]; reading a
    property of [newItems[idx]] past the end of the array is a TypeError. *)
Definition updateEditItemQty (idx : nat) (delta : Z) (prev : list SaleItem.t)
  : result (list SaleItem.t) :=
  match prev !! idx with
  | None => Throw (JsError "TypeError")
  | Some item =>
      let newQty := Z.max 0 (SaleItem.quantity item + delta) in
      Ok (<[idx := {| SaleItem.productId := SaleItem.productId item;
                      SaleItem.productName := SaleItem.productName item;
                      SaleItem.quantity := newQty;
                      SaleItem.unitPrice := SaleItem.unitPrice item;
                      SaleItem.subtotal := newQty * SaleItem.unitPrice item |}]> prev)
  end.

End SalesAnalytics.

(** *** components/DispatchClientCard.tsx

    [quantities] is an object used as a map from product id to quantity.
    [Object_entries] lists its properties, each key once; the order in which
    the engine lists them is not fixed here. *)

Module DispatchClientCard.

Definition updateQty (productId : string) (delta : Z) (prev : gmap string Z) : gmap string Z :=
  let current := default 0 (prev !! productId) in
  let next := Z.max 0 (current + delta) in
  <[productId := next]> prev.

Section entries.
Variable Object_entries : gmap string Z → list (string * Z).

(** [products.find(p => p.id === prodId)] *)
Definition find_product (products : list Product.t) (prodId : string) : option Product.t :=
  List.find (λ p, bool_decide (Product.id p = prodId)) products.

Definition calculateTotal (products : list Product.t) (quantities : gmap string Z) : Z :=
  foldl (λ total entry,
           if decide (0 < entry.2) then
             match find_product products entry.1 with
             | Some prod => total + Product.priceWholesale prod * entry.2
             | None => total
             end
           else total)
        0 (Object_entries quantities).

Definition getProposedItems (products : list Product.t) (quantities : gmap string Z)
  : list SaleItem.t :=
  foldl (λ items entry,
           if decide (0 < entry.2) then
             match find_product products entry.1 with
             | Some prod =>
                 (items ++ [ {| SaleItem.productId := Product.id prod;
                                SaleItem.productName := Product.name prod;
                                SaleItem.quantity := entry.2;
                                SaleItem.unitPrice := Product.priceWholesale prod;
                                SaleItem.subtotal :=
                                  Product.priceWholesale prod * entry.2 |} ])%list
             | None => items
             end
           else items)
        [] (Object_entries quantities).

(** [handleInitialClick]: whether the confirmation dialog is opened. *)
Definition handleInitialClick (products : list Product.t) (quantities : gmap string Z)
    (showConfirmation : bool) : bool :=
  match getProposedItems products quantities with
  | [] => showConfirmation
  | _ :: _ => true
  end.

End entries.
End DispatchClientCard.

(** ** Sequences of service calls *)

Inductive command : Type :=
| UpdateProduct (updatedProduct : Product.t)
| DeleteProduct (id : string)
| UpdateClient (updatedClient : Client.t)
| RegisterClientPayment (clientId : string) (amount : Z)
| AddSuspendedSale (sale : SuspendedSale.t)
| RemoveSuspendedSale (id : string)
| UpdateSale (updatedSale : Sale.t)
| CreateRetailSale (uuid now : string) (items : list SaleItem.t) (sellerId : string)
| CreateDispatchSale (uuid now clientId : string) (items : list SaleItem.t)
    (sellerId : string).

Definition exec (c : command) : DB unit :=
  match c with
  | UpdateProduct p => DBService.updateProduct p
  | DeleteProduct id => DBService.deleteProduct id
  | UpdateClient c => DBService.updateClient c
  | RegisterClientPayment clientId amount => DBService.registerClientPayment clientId amount
  | AddSuspendedSale sale => DBService.addSuspendedSale sale
  | RemoveSuspendedSale id => DBService.removeSuspendedSale id
  | UpdateSale sale => DBService.updateSale sale
  | CreateRetailSale uuid now items sellerId =>
      DBService.createRetailSale uuid now items sellerId
  | CreateDispatchSale uuid now clientId items sellerId =>
      DBService.createDispatchSale uuid now clientId items sellerId
  end.

(** The store after the calls of [cs], one after the other; a call that
    throws leaves the store as it was when it threw. *)
Definition run_all (cs : list command) (s : Store) : Store :=
  foldl (λ s c, (exec c s).1) s cs.

(** ** Quantities the statements speak of *)

(** Σ item.subtotal *)
Fixpoint sum_subtotal (items : list SaleItem.t) : Z :=
  match items with
  | [] => 0
  | item :: rest => SaleItem.subtotal item + sum_subtotal rest
  end.

(** The quantity a list of items takes of product [pid]: the sum of the
    quantities of the items whose [productId] is [pid]. *)
Fixpoint quantity_of (pid : string) (items : list SaleItem.t) : Z :=
  match items with
  | [] => 0
  | item :: rest =>
      (if decide (SaleItem.productId item = pid) then SaleItem.quantity item else 0)
      + quantity_of pid rest
  end.

(** A product row with [q] units taken off its stock. *)
Definition take (q : Z) (p : Product.t) : Product.t :=
  Product.set_stock (Product.stock p - q) p.

(** The catalog after the stock loop of a sale has run over [items]. *)
Definition take_all (items : list SaleItem.t) (m : gmap string Product.t) : gmap string Product.t :=
  foldl (λ m item, alter (take (SaleItem.quantity item)) (SaleItem.productId item) m) m items.

(** The ledger row both sale methods build. *)
Definition retail_sale (uuid now : string) (items : list SaleItem.t) (sellerId : string) : Sale.t :=
  {| Sale.id := uuid; Sale.date := now; Sale.type := pos; Sale.items := items;
     Sale.totalAmount := DBService.totalAmount_of items; Sale.clientId := None;
     Sale.clientName := None; Sale.sellerId := sellerId |}.

Definition dispatch_sale (uuid now clientId : string) (client : Client.t)
    (items : list SaleItem.t) (sellerId : string) : Sale.t :=
  {| Sale.id := uuid; Sale.date := now; Sale.type := dispatch; Sale.items := items;
     Sale.totalAmount := DBService.totalAmount_of items;
     Sale.clientId := Some clientId;
     Sale.clientName :=
       Some (DBService.or_else (Client.businessName client) (Client.name client));
     Sale.sellerId := sellerId |}.

(** Σ f(x) over the elements of a list. *)
Fixpoint sum_with {A : Type} (f : A → Z) (l : list A) : Z :=
  match l with
  | [] => 0
  | x :: rest => f x + sum_with f rest
  end.

(** No client owes a negative amount. *)
Definition debts_non_negative (s : Store) : Prop :=
  map_Forall (λ _ c, 0 ≤ Client.debt c) (clients s).

(** A call that puts no negative amount on a client: a client saved with a
    non-negative debt, a dispatch sale whose subtotals do not sum below zero. *)
Definition charges_nothing_negative (c : command) : Prop :=
  match c with
  | UpdateClient updatedClient => 0 ≤ Client.debt updatedClient
  | CreateDispatchSale _ _ _ items _ => 0 ≤ sum_subtotal items
  | _ => True
  end.

(** The product ids of the lines of a cart. *)
Definition cart_ids (cart : list CartItem.t) : list string :=
  (λ item, Product.id (CartItem.product item)) <$> cart.

(** A cart as the seller's buttons build it: one line per product, every
    quantity at least 1. *)
Definition cart_well_formed (cart : list CartItem.t) : Prop :=
  NoDup (cart_ids cart) ∧ Forall (λ item, 0 < CartItem.quantity item) cart.

(** The quantity a cart holds of a product id, 0 when it has no line for it. *)
Fixpoint quantity_in_cart (id : string) (cart : list CartItem.t) : Z :=
  match cart with
  | [] => 0
  | item :: rest =>
      (if decide (Product.id (CartItem.product item) = id)
       then CartItem.quantity item else 0)
      + quantity_in_cart id rest
  end.

(** What the seller can do to the cart from the product grid and the cart
    panel. *)
Inductive cart_action : Type :=
| Add (product : Product.t)
| ChangeQty (id : string) (delta : Z).

Definition apply_cart_action (cart : list CartItem.t) (a : cart_action) : list CartItem.t :=
  match a with
  | Add product => SellerView.addToCart product cart
  | ChangeQty id delta => SellerView.updateCartQty id delta cart
  end.

(** What one entry of the quantities of a dispatch card adds to the items
    the card proposes. *)
Definition proposed_line (products : list Product.t) (entry : string * Z) : list SaleItem.t :=
  if decide (0 < entry.2) then
    match DispatchClientCard.find_product products entry.1 with
    | Some prod =>
        [ {| SaleItem.productId := Product.id prod;
             SaleItem.productName := Product.name prod;
             SaleItem.quantity := entry.2;
             SaleItem.unitPrice := Product.priceWholesale prod;
             SaleItem.subtotal := Product.priceWholesale prod * entry.2 |} ]
    | None => []
    end
  else [].

(** ** A small shop, used to run the methods on concrete inputs *)

Module Fixtures.

Definition P : Product.t :=
  {| Product.id := "P"; Product.name := "Pan campesino"; Product.priceRetail := 1;
     Product.priceWholesale := 1; Product.cost := 1; Product.stock := 10;
     Product.category := "Panes"; Product.image := None |}.

Definition Q : Product.t :=
  {| Product.id := "Q"; Product.name := "Torta de chocolate"; Product.priceRetail := 6;
     Product.priceWholesale := 5; Product.cost := 3; Product.stock := 8;
     Product.category := "Dulces"; Product.image := None |}.

Definition C : Client.t :=
  {| Client.id := "C"; Client.name := "Ana Perez";
     Client.businessName := "Bodega La Esquina"; Client.debt := 20;
     Client.creditLimit := 100; Client.address := "Calle 1" |}.

(** A client filed without a business name. *)
Definition D : Client.t :=
  {| Client.id := "D"; Client.name := "Luis Mora"; Client.businessName := "";
     Client.debt := 70; Client.creditLimit := 100; Client.address := "Calle 2" |}.

Definition shop : Store :=
  {| products := {[ "P" := P; "Q" := Q ]}; clients := {[ "C" := C; "D" := D ]};
     sales := ∅; suspended_sales := ∅ |}.

Definition four_P : SaleItem.t :=
  {| SaleItem.productId := "P"; SaleItem.productName := "Pan campesino";
     SaleItem.quantity := 4; SaleItem.unitPrice := 1; SaleItem.subtotal := 4 |}.

Definition two_Q : SaleItem.t :=
  {| SaleItem.productId := "Q"; SaleItem.productName := "Torta de chocolate";
     SaleItem.quantity := 2; SaleItem.unitPrice := 5; SaleItem.subtotal := 10 |}.

(** More loaves than the shelf holds. *)
Definition twelve_P : SaleItem.t :=
  {| SaleItem.productId := "P"; SaleItem.productName := "Pan campesino";
     SaleItem.quantity := 12; SaleItem.unitPrice := 1; SaleItem.subtotal := 12 |}.

(** A quantity below zero. *)
Definition minus_three_P : SaleItem.t :=
  {| SaleItem.productId := "P"; SaleItem.productName := "Pan campesino";
     SaleItem.quantity := -3; SaleItem.unitPrice := 1; SaleItem.subtotal := -3 |}.

(** An item for a product that is not in the catalog. *)
Definition two_Z : SaleItem.t :=
  {| SaleItem.productId := "Z"; SaleItem.productName := "Golfeado";
     SaleItem.quantity := 2; SaleItem.unitPrice := 5; SaleItem.subtotal := 10 |}.

(** A cart of three loaves and two cakes, worth 15, and the seller's view
    that holds it. *)
Definition cart_A : list CartItem.t :=
  [ {| CartItem.product := P; CartItem.quantity := 3 |};
    {| CartItem.product := Q; CartItem.quantity := 2 |} ].

Definition counter : SellerView.state :=
  {| SellerView.products := [P; Q]; SellerView.clients := [C; D];
     SellerView.cart := cart_A; SellerView.isCartOpen := true;
     SellerView.showPaymentModal := false; SellerView.suspendedSales := [];
     SellerView.showSuspendedModal := false |}.

(** The held cart [handleSuspendSale] files for it. *)
Definition held_A : SuspendedSale.t :=
  {| SuspendedSale.id := "1714557600000"; SuspendedSale.customerName := "Walk-in A";
     SuspendedSale.items := cart_A; SuspendedSale.date := "2024-05-01T10:00:00.000Z";
     SuspendedSale.total := 15 |}.

(** A dispatch sale on file, the dialog that edits it, and an older sale. *)
Definition sale_1 : Sale.t :=
  {| Sale.id := "3f2b8c1e-0000-4000-8000-000000000001";
     Sale.date := "2024-05-01T10:00:00.000Z"; Sale.type := dispatch;
     Sale.items := [two_Q; four_P]; Sale.totalAmount := 14; Sale.clientId := Some "C";
     Sale.clientName := Some "Bodega La Esquina"; Sale.sellerId := "seller-1" |}.

Definition sale_0 : Sale.t :=
  {| Sale.id := "3f2b8c1e-0000-4000-8000-000000000000";
     Sale.date := "2024-04-30T18:30:00.000Z"; Sale.type := pos;
     Sale.items := [four_P]; Sale.totalAmount := 4; Sale.clientId := None;
     Sale.clientName := None; Sale.sellerId := "seller-2" |}.

(** [sale_1] as a caller of [updateSale] may hand it over: the same id,
    items and total, another date, type and seller, and no client
    properties. *)
Definition sale_1_retyped : Sale.t :=
  {| Sale.id := "3f2b8c1e-0000-4000-8000-000000000001";
     Sale.date := "2024-06-15T09:00:00.000Z"; Sale.type := pos;
     Sale.items := [two_Q; four_P]; Sale.totalAmount := 14; Sale.clientId := None;
     Sale.clientName := None; Sale.sellerId := "seller-9" |}.

Definition shop_with_sales : Store :=
  {| products := {[ "P" := P; "Q" := Q ]}; clients := {[ "C" := C; "D" := D ]};
     sales := {[ Sale.id sale_0 := sale_0; Sale.id sale_1 := sale_1 ]};
     suspended_sales := ∅ |}.

(** The edit dialog of [sale_1] with the loaves taken down to zero. *)
Definition no_P : SaleItem.t :=
  {| SaleItem.productId := "P"; SaleItem.productName := "Pan campesino";
     SaleItem.quantity := 0; SaleItem.unitPrice := 1; SaleItem.subtotal := 0 |}.

Definition editing_sale_1 : SalesAnalytics.state :=
  {| SalesAnalytics.selectedSale := Some sale_1; SalesAnalytics.isEditingSale := true;
     SalesAnalytics.editItems := [two_Q; no_P] |}.

(** A product the shop does not stock yet. *)
Definition G : Product.t :=
  {| Product.id := "G"; Product.name := "Golfeado"; Product.priceRetail := 2;
     Product.priceWholesale := 1; Product.cost := 1; Product.stock := 30;
     Product.category := "Dulces"; Product.image := None |}.

(** The quantities keyed into a client's dispatch card: two cakes, no
    loaves after all, and three of a product that has left the catalog. *)
Definition keyed : gmap string Z := {[ "Q" := 2; "P" := 0; "Z" := 3 ]}.

(** A store with nothing on file. *)
Definition empty_store : Store :=
  {| products := ∅; clients := ∅; sales := ∅; suspended_sales := ∅ |}.

Definition uuid1 : string := "3f2b8c1e-0000-4000-8000-000000000001".
Definition uuid2 : string := "3f2b8c1e-0000-4000-8000-000000000002".
Definition t1 : string := "2024-05-01T10:00:00.000Z".
Definition t2 : string := "2024-05-01T10:00:05.000Z".

End Fixtures.

(** ** Lemmas on the store and on the stock loop *)

Lemma with_products_id (f : gmap string Product.t → gmap string Product.t) s :
  f (products s) = products s → with_products f s = s.
Proof. destruct s; unfold with_products; simpl; intros ->; reflexivity. Qed.

Lemma alter_missing {R : Type} (g : R → R) (m : gmap string R) k :
  m !! k = None → alter g k m = m.
Proof.
  intros Hk. apply map_eq; intros j. rewrite lookup_alter.
  case_decide; subst; rewrite ?Hk; reflexivity.
Qed.

Lemma take_zero p : take 0 p = p.
Proof. destruct p; unfold take, Product.set_stock; simpl; f_equal; lia. Qed.

Lemma take_take a b p : take a (take b p) = take (b + a) p.
Proof. unfold take, Product.set_stock; simpl; f_equal; lia. Qed.

Lemma stock_take q p : Product.stock (take q p) = Product.stock p - q.
Proof. reflexivity. Qed.

Lemma totalAmount_of_from (acc : Z) items :
  foldl (λ sum item, sum + SaleItem.subtotal item) acc items = acc + sum_subtotal items.
Proof.
  revert acc; induction items as [|item rest IH]; intros acc; simpl.
  - lia.
  - rewrite IH; lia.
Qed.

Lemma totalAmount_of_sum items : DBService.totalAmount_of items = sum_subtotal items.
Proof. unfold DBService.totalAmount_of; rewrite totalAmount_of_from; lia. Qed.

Lemma decrementStock_run pid q s :
  DBService.decrementStock pid q s = (with_products (alter (take q) pid) s, Ok tt).
Proof.
  unfold DBService.decrementStock, supabase.select_single, supabase.update_eq,
    bind, gets, ret.
  destruct (products s !! pid) as [prod|] eqn:Hprod; simpl.
  - unfold with_products.
    rewrite (alter_ext _ (take q) (products s) pid); [reflexivity|].
    intros x Hx. rewrite Hprod in Hx; injection Hx as ->. reflexivity.
  - f_equal. symmetry; apply with_products_id.
    apply map_eq; intros k. rewrite lookup_alter.
    case_decide; subst; rewrite ?Hprod; reflexivity.
Qed.

Lemma stock_loop_run items s :
  for_of items (λ item,
    DBService.decrementStock (SaleItem.productId item) (SaleItem.quantity item)) s
  = (with_products (take_all items) s, Ok tt).
Proof.
  revert s; induction items as [|item rest IH]; intros s; simpl.
  - unfold ret; f_equal. symmetry; apply with_products_id; reflexivity.
  - unfold bind at 1. rewrite decrementStock_run, IH. reflexivity.
Qed.

Lemma lookup_take_all items (m : gmap string Product.t) pid :
  take_all items m !! pid = take (quantity_of pid items) <$> m !! pid.
Proof.
  revert m; induction items as [|item rest IH]; intros m; simpl.
  - destruct (m !! pid); simpl; [rewrite take_zero|]; reflexivity.
  - unfold take_all in *; simpl. rewrite IH, lookup_alter.
    case_decide as Hk.
    + rewrite Hk. destruct (m !! pid); simpl; [rewrite take_take|]; reflexivity.
    + destruct (m !! pid); simpl; reflexivity.
Qed.

Lemma quantity_of_once pid items item :
  NoDup (SaleItem.productId <$> items) → item ∈ items → SaleItem.productId item = pid →
  quantity_of pid items = SaleItem.quantity item.
Proof.
  induction items as [|x rest IH]; intros Hnd Hin Hpid.
  - inversion Hin.
  - rewrite fmap_cons in Hnd. apply NoDup_cons in Hnd as [Hx Hnd].
    assert (Hzero : ∀ l, pid ∉ SaleItem.productId <$> l → quantity_of pid l = 0).
    { clear. induction l as [|y l IHl]; intros Hy; simpl; [reflexivity|].
      rewrite fmap_cons in Hy. apply not_elem_of_cons in Hy as [Hne Hy].
      rewrite IHl by assumption. case_decide; [congruence | lia]. }
    simpl. apply elem_of_cons in Hin as [->|Hin].
    + rewrite decide_True by assumption. rewrite Hzero; [lia|]. congruence.
    + rewrite decide_False.
      * rewrite (IH Hnd Hin Hpid). lia.
      * intros Heq. apply Hx. rewrite Heq, <- Hpid.
        apply list_elem_of_fmap. exists item; split; [reflexivity | assumption].
Qed.

(** ** What one call of a sale method does *)

Lemma createRetailSale_run uuid now items sellerId s :
  sales s !! uuid = None →
  DBService.createRetailSale uuid now items sellerId s
  = (with_products (take_all items)
       (with_sales (insert uuid (retail_sale uuid now items sellerId)) s), Ok tt).
Proof.
  intros Hfresh.
  unfold DBService.createRetailSale, supabase.insert, bind; simpl.
  rewrite Hfresh. apply stock_loop_run.
Qed.

Lemma createRetailSale_taken uuid now items sellerId s :
  is_Some (sales s !! uuid) →
  DBService.createRetailSale uuid now items sellerId s
  = (s, Throw (PostgrestError "23505")).
Proof.
  intros [old Hold].
  unfold DBService.createRetailSale, supabase.insert, bind; simpl.
  rewrite Hold. reflexivity.
Qed.

Lemma createDispatchSale_run uuid now clientId items sellerId s client :
  clients s !! clientId = Some client →
  sales s !! uuid = None →
  DBService.createDispatchSale uuid now clientId items sellerId s
  = (with_products (take_all items)
       (with_clients
          (alter (Client.set_debt (Client.debt client + DBService.totalAmount_of items))
                 clientId)
          (with_sales (insert uuid (dispatch_sale uuid now clientId client items sellerId))
             s)), Ok tt).
Proof.
  intros Hclient Hfresh.
  unfold DBService.createDispatchSale, supabase.select_single, supabase.insert,
    supabase.update_eq, bind, gets; simpl.
  rewrite Hclient, Hfresh. apply stock_loop_run.
Qed.

Lemma createDispatchSale_no_client uuid now clientId items sellerId s :
  clients s !! clientId = None →
  DBService.createDispatchSale uuid now clientId items sellerId s
  = (s, Throw (JsError "Cliente no existe")).
Proof.
  intros Hclient.
  unfold DBService.createDispatchSale, supabase.select_single, bind, gets; simpl.
  rewrite Hclient. reflexivity.
Qed.

Lemma createDispatchSale_taken uuid now clientId items sellerId s client :
  clients s !! clientId = Some client →
  is_Some (sales s !! uuid) →
  DBService.createDispatchSale uuid now clientId items sellerId s
  = (s, Throw (PostgrestError "23505")).
Proof.
  intros Hclient [old Hold].
  unfold DBService.createDispatchSale, supabase.select_single, supabase.insert,
    bind, gets; simpl.
  rewrite Hclient, Hold. reflexivity.
Qed.

Lemma registerClientPayment_run clientId amount s client :
  clients s !! clientId = Some client →
  DBService.registerClientPayment clientId amount s
  = (with_clients
       (alter (Client.set_debt (Z.max 0 (Client.debt client - amount))) clientId) s,
     Ok tt).
Proof.
  intros Hclient.
  unfold DBService.registerClientPayment, supabase.select_single, supabase.update_eq,
    bind, gets; simpl.
  rewrite Hclient. reflexivity.
Qed.

(** ** Retail sales *)

(** C2.  A retail sale of a non-empty list of items with positive quantities
    whose products are all in the catalog, made under an id the ledger does
    not hold yet, returns normally and persists exactly one sale: the ledger
    is the old one with that sale added, the sale has type [pos] (retail),
    carries the items, and its [totalAmount] is the sum of the items'
    subtotals.  The stock of every product goes down by the quantities of the
    items that name it, so when every item names a product of its own, each
    referenced product's stock goes down by exactly that item's quantity.
    No client is touched. *)
Theorem createRetailSale_persists_and_decrements s uuid now items sellerId :
  items ≠ [] →
  Forall (λ item, 0 < SaleItem.quantity item) items →
  Forall (λ item, is_Some (products s !! SaleItem.productId item)) items →
  sales s !! uuid = None →
  ∃ s' sale,
    DBService.createRetailSale uuid now items sellerId s = (s', Ok tt)
    ∧ sales s' = <[uuid := sale]> (sales s)
    ∧ size (sales s') = S (size (sales s))
    ∧ Sale.type sale = pos
    ∧ Sale.items sale = items
    ∧ Sale.totalAmount sale = sum_subtotal items
    ∧ (∀ pid, products s' !! pid = take (quantity_of pid items) <$> products s !! pid)
    ∧ (NoDup (SaleItem.productId <$> items) →
       ∀ item, item ∈ items →
         ∃ p, products s !! SaleItem.productId item = Some p
              ∧ products s' !! SaleItem.productId item
                = Some (Product.set_stock (Product.stock p - SaleItem.quantity item) p))
    ∧ clients s' = clients s.
Proof.
  intros _ _ Hexist Hfresh.
  eexists _, (retail_sale uuid now items sellerId).
  split; [apply createRetailSale_run; assumption|]. simpl.
  repeat split.
  - apply map_size_insert_None; assumption.
  - apply totalAmount_of_sum.
  - intros pid. apply lookup_take_all.
  - intros Hnd item Hin.
    rewrite Forall_forall in Hexist. destruct (Hexist item Hin) as [p Hp].
    exists p; split; [assumption|].
    rewrite lookup_take_all, Hp; simpl.
    rewrite (quantity_of_once _ items item) by auto. reflexivity.
Qed.

Lemma createRetailSale_persists_and_decrements_witness :
  ∃ s' sale,
    DBService.createRetailSale Fixtures.uuid1 Fixtures.t1 [Fixtures.four_P] "seller-1"
      Fixtures.shop = (s', Ok tt)
    ∧ sales s' = <[Fixtures.uuid1 := sale]> ∅
    ∧ Sale.type sale = pos
    ∧ Sale.totalAmount sale = 4
    ∧ Product.stock <$> products s' !! "P" = Some 6
    ∧ Product.stock <$> products s' !! "Q" = Some 8.
Proof.
  destruct (createRetailSale_persists_and_decrements Fixtures.shop Fixtures.uuid1
              Fixtures.t1 [Fixtures.four_P] "seller-1")
    as (s' & sale & Hrun & Hsales & _ & Htype & _ & Htotal & Hstock & _).
  - discriminate.
  - repeat constructor.
  - repeat constructor. exists Fixtures.P. reflexivity.
  - reflexivity.
  - exists s', sale. rewrite !Hstock.
    repeat split; assumption || reflexivity.
Defined.

(** ** Dispatch sales *)

(** C3.  A dispatch sale to a client that exists, of a valid list of items,
    under an id the ledger does not hold yet, returns normally; the persisted
    sale names the client, its [clientName] is the client's business name, or
    the contact name when the business name is empty; the client's row is the
    old row with [debt] raised by the sale's [totalAmount], once; no other
    client changes. *)
Theorem createDispatchSale_charges_debt_once s uuid now clientId items sellerId client :
  clients s !! clientId = Some client →
  items ≠ [] →
  Forall (λ item, 0 < SaleItem.quantity item) items →
  Forall (λ item, is_Some (products s !! SaleItem.productId item)) items →
  sales s !! uuid = None →
  ∃ s' sale client',
    DBService.createDispatchSale uuid now clientId items sellerId s = (s', Ok tt)
    ∧ sales s' = <[uuid := sale]> (sales s)
    ∧ Sale.type sale = dispatch
    ∧ Sale.clientId sale = Some clientId
    ∧ Sale.totalAmount sale = sum_subtotal items
    ∧ (Client.businessName client ≠ "" →
       Sale.clientName sale = Some (Client.businessName client))
    ∧ (Client.businessName client = "" →
       Sale.clientName sale = Some (Client.name client))
    ∧ clients s' !! clientId = Some client'
    ∧ Client.debt client' = Client.debt client + Sale.totalAmount sale
    ∧ client' = Client.set_debt (Client.debt client') client
    ∧ (∀ k, k ≠ clientId → clients s' !! k = clients s !! k).
Proof.
  intros Hclient _ _ _ Hfresh.
  exists (with_products (take_all items)
            (with_clients
               (alter (Client.set_debt (Client.debt client + DBService.totalAmount_of items))
                      clientId)
               (with_sales
                  (insert uuid (dispatch_sale uuid now clientId client items sellerId)) s))),
    (dispatch_sale uuid now clientId client items sellerId),
    (Client.set_debt (Client.debt client + DBService.totalAmount_of items) client).
  split; [apply createDispatchSale_run; assumption|]. simpl.
  split_and!; try reflexivity.
  - apply totalAmount_of_sum.
  - intros Hne. unfold DBService.or_else. rewrite decide_False by assumption. reflexivity.
  - intros He. unfold DBService.or_else. rewrite decide_True by assumption. reflexivity.
  - rewrite lookup_alter, decide_True, Hclient by reflexivity. reflexivity.
  - intros k Hk. rewrite lookup_alter_ne by congruence. reflexivity.
Qed.

Lemma createDispatchSale_charges_debt_once_witness :
  ∃ s' sale,
    DBService.createDispatchSale Fixtures.uuid1 Fixtures.t1 "C" [Fixtures.two_Q]
      "seller-1" Fixtures.shop = (s', Ok tt)
    ∧ sales s' = <[Fixtures.uuid1 := sale]> ∅
    ∧ Sale.clientName sale = Some "Bodega La Esquina"
    ∧ Client.debt <$> clients s' !! "C" = Some 30
    ∧ clients s' !! "D" = Some Fixtures.D.
Proof.
  destruct (createDispatchSale_charges_debt_once Fixtures.shop Fixtures.uuid1
              Fixtures.t1 "C" [Fixtures.two_Q] "seller-1" Fixtures.C)
    as (s' & sale & client' & Hrun & Hsales & _ & _ & Htotal & Hname & _ & Hrow
        & Hdebt & _ & Hothers).
  - reflexivity.
  - discriminate.
  - repeat constructor.
  - repeat constructor. exists Fixtures.Q. reflexivity.
  - reflexivity.
  - exists s', sale. rewrite Hrow, (Hothers "D") by discriminate. simpl.
    rewrite Hdebt, Htotal.
    repeat split; try assumption; try reflexivity.
    apply Hname. discriminate.
Defined.

(** ** Payments *)

(** C4.  A payment of any amount by a client that exists returns normally and
    leaves the client's row as it was except for [debt], which becomes
    [max 0 (debt - amount)] and so is never negative; every other client,
    the catalog, the ledger and the held carts are as before. *)
Theorem registerClientPayment_clamps_at_zero s clientId amount client :
  clients s !! clientId = Some client →
  ∃ s' client',
    DBService.registerClientPayment clientId amount s = (s', Ok tt)
    ∧ clients s' !! clientId = Some client'
    ∧ Client.debt client' = Z.max 0 (Client.debt client - amount)
    ∧ 0 ≤ Client.debt client'
    ∧ Client.id client' = Client.id client
    ∧ Client.name client' = Client.name client
    ∧ Client.businessName client' = Client.businessName client
    ∧ Client.creditLimit client' = Client.creditLimit client
    ∧ Client.address client' = Client.address client
    ∧ (∀ k, k ≠ clientId → clients s' !! k = clients s !! k)
    ∧ products s' = products s
    ∧ sales s' = sales s
    ∧ suspended_sales s' = suspended_sales s.
Proof.
  intros Hclient.
  eexists _, (Client.set_debt (Z.max 0 (Client.debt client - amount)) client).
  split; [apply registerClientPayment_run; eassumption|]. simpl.
  repeat split.
  - rewrite lookup_alter, decide_True, Hclient by reflexivity. reflexivity.
  - lia.
  - intros k Hk. rewrite lookup_alter_ne by congruence. reflexivity.
Qed.

Lemma registerClientPayment_clamps_at_zero_witness :
  ∃ s1 s2,
    DBService.registerClientPayment "D" 30 Fixtures.shop = (s1, Ok tt)
    ∧ Client.debt <$> clients s1 !! "D" = Some 40
    ∧ DBService.registerClientPayment "D" 100 s1 = (s2, Ok tt)
    ∧ Client.debt <$> clients s2 !! "D" = Some 0.
Proof.
  destruct (registerClientPayment_clamps_at_zero Fixtures.shop "D" 30 Fixtures.D)
    as (s1 & d1 & Hrun1 & Hrow1 & Hdebt1 & _); [reflexivity|].
  destruct (registerClientPayment_clamps_at_zero s1 "D" 100 d1)
    as (s2 & d2 & Hrun2 & Hrow2 & Hdebt2 & _); [assumption|].
  exists s1, s2. rewrite Hrow1, Hrow2; simpl. rewrite Hdebt2, Hdebt1.
  repeat split; assumption || reflexivity.
Defined.

(** ** Failure and partial effects *)

(** C1, the claim refuted.  A dispatch sale that names a product the catalog
    does not hold ("Z") does not fail: it returns normally, the sale is in
    the ledger, the client's debt is raised by the whole total (20 + 20), the
    stock of the product that exists is lowered, and nothing is done for the
    missing one. *)
Lemma createDispatchSale_missing_product_counterexample :
  products Fixtures.shop !! "Z" = None
  ∧ ∃ s',
      DBService.createDispatchSale Fixtures.uuid1 Fixtures.t1 "C"
        [Fixtures.two_Q; Fixtures.two_Z] "seller-1" Fixtures.shop = (s', Ok tt)
      ∧ Sale.totalAmount <$> sales s' !! Fixtures.uuid1 = Some 20
      ∧ Client.debt <$> clients s' !! "C" = Some 40
      ∧ Product.stock <$> products s' !! "Q" = Some 6
      ∧ products s' !! "Z" = None.
Proof.
  split; [reflexivity|].
  eexists. split; [vm_compute; reflexivity|].
  vm_compute. repeat split.
Qed.

(** C1, as the code has it.  A sale method throws only before its first
    write: a dispatch sale when the client is missing or the ledger refuses
    the new row, a retail sale when the ledger refuses the new row; the store
    is then exactly as before.  When the method returns, the sale is in the
    ledger, (for a dispatch sale) the client's debt is raised by the total,
    and every product of the catalog has lost the quantities of the items
    that name it; an item whose product is missing is passed over. *)
Theorem sale_creation_throws_only_before_writing s uuid now clientId items sellerId :
  let dsp := DBService.createDispatchSale uuid now clientId items sellerId s in
  let rtl := DBService.createRetailSale uuid now items sellerId s in
  match dsp.2 with
  | Throw _ =>
      dsp.1 = s ∧ (clients s !! clientId = None ∨ is_Some (sales s !! uuid))
  | Ok _ =>
      ∃ client,
        clients s !! clientId = Some client
        ∧ sales dsp.1
          = <[uuid := dispatch_sale uuid now clientId client items sellerId]> (sales s)
        ∧ clients dsp.1 !! clientId
          = Some (Client.set_debt (Client.debt client + sum_subtotal items) client)
        ∧ (∀ k, k ≠ clientId → clients dsp.1 !! k = clients s !! k)
        ∧ (∀ pid, products dsp.1 !! pid = take (quantity_of pid items) <$> products s !! pid)
  end
  ∧ match rtl.2 with
    | Throw _ => rtl.1 = s ∧ is_Some (sales s !! uuid)
    | Ok _ =>
        sales rtl.1 = <[uuid := retail_sale uuid now items sellerId]> (sales s)
        ∧ clients rtl.1 = clients s
        ∧ (∀ pid, products rtl.1 !! pid = take (quantity_of pid items) <$> products s !! pid)
    end.
Proof.
  intros dsp rtl. subst dsp rtl. split.
  - destruct (clients s !! clientId) as [client|] eqn:Hclient.
    + destruct (sales s !! uuid) as [old|] eqn:Hsale.
      * rewrite (createDispatchSale_taken _ _ _ _ _ _ client) by (rewrite ?Hsale; eauto).
        simpl. split; [reflexivity | right; eauto].
      * rewrite (createDispatchSale_run _ _ _ _ _ _ client) by assumption. simpl.
        exists client. split_and!; try reflexivity.
        -- rewrite lookup_alter, decide_True, Hclient, totalAmount_of_sum by reflexivity.
           reflexivity.
        -- intros k Hk. rewrite lookup_alter_ne by congruence. reflexivity.
        -- intros pid. apply lookup_take_all.
    + rewrite createDispatchSale_no_client by assumption. simpl. auto.
  - destruct (sales s !! uuid) as [old|] eqn:Hsale.
    + rewrite createRetailSale_taken by (rewrite Hsale; eauto). simpl.
      split; [reflexivity | eauto].
    + rewrite createRetailSale_run by assumption. simpl.
      split_and!; try reflexivity. intros pid. apply lookup_take_all.
Qed.

(** ** Overselling *)

(** C5, the claim refuted.  With 10 loaves on the shelf, a retail sale of 12
    returns normally and leaves the stock at -2. *)
Lemma createRetailSale_oversell_counterexample :
  Product.stock <$> products Fixtures.shop !! "P" = Some 10
  ∧ ∃ s',
      DBService.createRetailSale Fixtures.uuid1 Fixtures.t1 [Fixtures.twelve_P]
        "seller-1" Fixtures.shop = (s', Ok tt)
      ∧ Product.stock <$> products s' !! "P" = Some (-2).
Proof.
  split; [reflexivity|].
  eexists. split; [vm_compute; reflexivity|]. reflexivity.
Qed.

(** C5, as the code has it.  [decrementStock] on a product that exists never
    fails and never compares: it writes [stock - quantity] whatever the two
    numbers are, so the new stock is non-negative exactly when the quantity
    did not exceed the old stock; the other rows of the catalog, the clients
    and the ledger are as before. *)
Theorem decrementStock_subtracts_unconditionally s productId quantity p :
  products s !! productId = Some p →
  ∃ s' p',
    DBService.decrementStock productId quantity s = (s', Ok tt)
    ∧ products s' !! productId = Some p'
    ∧ p' = Product.set_stock (Product.stock p - quantity) p
    ∧ (0 ≤ Product.stock p' ↔ quantity ≤ Product.stock p)
    ∧ (∀ k, k ≠ productId → products s' !! k = products s !! k)
    ∧ clients s' = clients s
    ∧ sales s' = sales s.
Proof.
  intros Hp.
  eexists _, (Product.set_stock (Product.stock p - quantity) p).
  split; [apply decrementStock_run|]. simpl.
  split_and!; try reflexivity.
  - rewrite lookup_alter, decide_True, Hp by reflexivity. reflexivity.
  - simpl; lia.
  - intros k Hk. rewrite lookup_alter_ne by congruence. reflexivity.
Qed.

Lemma decrementStock_subtracts_unconditionally_witness :
  ∃ s',
    DBService.decrementStock "P" 12 Fixtures.shop = (s', Ok tt)
    ∧ Product.stock <$> products s' !! "P" = Some (-2)
    ∧ products s' !! "Q" = Some Fixtures.Q.
Proof.
  destruct (decrementStock_subtracts_unconditionally Fixtures.shop "P" 12 Fixtures.P)
    as (s' & p' & Hrun & Hrow & Hp' & _ & Hothers & _); [reflexivity|].
  exists s'. rewrite Hrow, Hp', (Hothers "Q") by discriminate.
  repeat split; assumption || reflexivity.
Defined.

(** ** Calling a sale method again *)



(** ** Input checks *)

(** C7, the claim refuted.  Nothing is rejected: a retail sale with no items
    returns normally and is in the ledger afterwards; a retail sale of -3
    loaves returns normally and raises the stock from 10 to 13; a payment of
    -5 returns normally and raises the debt from 20 to 25. *)
Lemma invalid_input_accepted_counterexample :
  (∃ s',
     DBService.createRetailSale Fixtures.uuid1 Fixtures.t1 [] "seller-1" Fixtures.shop
     = (s', Ok tt)
     ∧ sales Fixtures.shop !! Fixtures.uuid1 = None
     ∧ Sale.items <$> sales s' !! Fixtures.uuid1 = Some [])
  ∧ (∃ s',
       DBService.createRetailSale Fixtures.uuid1 Fixtures.t1 [Fixtures.minus_three_P]
         "seller-1" Fixtures.shop = (s', Ok tt)
       ∧ Product.stock <$> products s' !! "P" = Some 13)
  ∧ (∃ s',
       DBService.registerClientPayment "C" (-5) Fixtures.shop = (s', Ok tt)
       ∧ Client.debt <$> clients s' !! "C" = Some 25).
Proof.
  split_and!; eexists; (split; [vm_compute; reflexivity|]); vm_compute; repeat split.
Qed.

(** C7, as the code has it.  The service checks nothing about its arguments.
    Under an id the ledger does not hold yet, a retail sale with no items
    returns normally and adds to the ledger a sale with no items and total 0,
    leaving catalog and clients as they were; a retail sale of one item whose
    quantity is zero or less returns normally and writes [stock - quantity],
    which is at least the old stock; and a payment of an amount that is zero
    or less by a client whose debt is not negative returns normally and
    writes [debt - amount], which is at least the old debt. *)
Theorem invalid_input_is_applied_as_written s uuid now sellerId :
  sales s !! uuid = None →
  (∃ s',
     DBService.createRetailSale uuid now [] sellerId s = (s', Ok tt)
     ∧ sales s' = <[uuid := retail_sale uuid now [] sellerId]> (sales s)
     ∧ Sale.totalAmount (retail_sale uuid now [] sellerId) = 0
     ∧ products s' = products s
     ∧ clients s' = clients s)
  ∧ (∀ item p,
       products s !! SaleItem.productId item = Some p →
       SaleItem.quantity item ≤ 0 →
       ∃ s' p',
         DBService.createRetailSale uuid now [item] sellerId s = (s', Ok tt)
         ∧ products s' !! SaleItem.productId item = Some p'
         ∧ Product.stock p' = Product.stock p - SaleItem.quantity item
         ∧ Product.stock p ≤ Product.stock p')
  ∧ (∀ clientId client amount,
       clients s !! clientId = Some client →
       amount ≤ 0 →
       0 ≤ Client.debt client →
       ∃ s' client',
         DBService.registerClientPayment clientId amount s = (s', Ok tt)
         ∧ clients s' !! clientId = Some client'
         ∧ Client.debt client' = Client.debt client - amount
         ∧ Client.debt client ≤ Client.debt client').
Proof.
  intros Hfresh. split_and!.
  - eexists. split; [apply createRetailSale_run; assumption|].
    simpl. split_and!; reflexivity.
  - intros item p Hp Hq.
    eexists _, (take (SaleItem.quantity item) p).
    split; [apply createRetailSale_run; assumption|].
    simpl. split_and!.
    + rewrite lookup_alter, decide_True, Hp by reflexivity. reflexivity.
    + reflexivity.
    + lia.
  - intros clientId client amount Hclient Hamount Hdebt.
    eexists _, (Client.set_debt (Z.max 0 (Client.debt client - amount)) client).
    split; [apply registerClientPayment_run; eassumption|].
    simpl. split_and!.
    + rewrite lookup_alter, decide_True, Hclient by reflexivity. reflexivity.
    + lia.
    + lia.
Qed.

Lemma invalid_input_is_applied_as_written_witness :
  (∃ s',
     DBService.createRetailSale Fixtures.uuid1 Fixtures.t1 [] "seller-1" Fixtures.shop
     = (s', Ok tt)
     ∧ size (sales s') = 1%nat)
  ∧ (∃ s' p',
       DBService.createRetailSale Fixtures.uuid1 Fixtures.t1 [Fixtures.minus_three_P]
         "seller-1" Fixtures.shop = (s', Ok tt)
       ∧ products s' !! "P" = Some p'
       ∧ Product.stock p' = 13)
  ∧ (∃ s' client',
       DBService.registerClientPayment "C" (-5) Fixtures.shop = (s', Ok tt)
       ∧ clients s' !! "C" = Some client'
       ∧ Client.debt client' = 25).
Proof.
  destruct (invalid_input_is_applied_as_written Fixtures.shop Fixtures.uuid1 Fixtures.t1
              "seller-1") as (Hempty & Hitem & Hpay); [reflexivity|].
  split_and!.
  - destruct Hempty as (s' & Hrun & Hsales & _).
    exists s'. split; [assumption|]. rewrite Hsales. reflexivity.
  - destruct (Hitem Fixtures.minus_three_P Fixtures.P) as (s' & p' & Hrun & Hrow & Hst & _);
      [reflexivity | simpl; lia |].
    exists s', p'. split_and!; [assumption | assumption | rewrite Hst; reflexivity].
  - destruct (Hpay "C" Fixtures.C (-5)) as (s' & c' & Hrun & Hrow & Hd & _);
      [reflexivity | lia | simpl; lia |].
    exists s', c'. split_and!; [assumption | assumption | rewrite Hd; reflexivity].
Defined.

(** ** Held carts *)

Lemma loadData_run v s :
  SellerView.loadData (v, s)
  = ((SellerView.setSuspendedSales (map_to_list (suspended_sales s)).*2
        (SellerView.setClients (map_to_list (clients s)).*2
           (SellerView.setProducts (map_to_list (products s)).*2 v)), s), Ok tt).
Proof. reflexivity. Qed.

Lemma handleResumeSale_run confirm suspended v s :
  SellerView.cart v = [] ∨ confirm = true →
  SellerView.handleResumeSale confirm suspended (v, s)
  = ((SellerView.setShowSuspendedModal false
        (SellerView.setSuspendedSales
           (map_to_list (delete (SuspendedSale.id suspended) (suspended_sales s))).*2
           (SellerView.setClients (map_to_list (clients s)).*2
              (SellerView.setProducts (map_to_list (products s)).*2
                 (SellerView.setCart (SuspendedSale.items suspended) v)))),
      with_suspended_sales (delete (SuspendedSale.id suspended)) s), Ok tt).
Proof.
  intros Hgo. unfold SellerView.handleResumeSale, bind, get_state, gets; simpl.
  destruct Hgo as [-> | ->]; [|destruct (SellerView.cart v)]; reflexivity.
Qed.

(** C8, the claim refuted.  The seller parks the cart of "Walk-in A" and
    resumes it: the cart comes back and the held record is gone from the
    store.  Resuming the same record once more (the seller confirming that
    the cart may be overwritten) does not fail: the handler returns normally
    and puts the same items in the cart again. *)
Lemma handleResumeSale_second_time_counterexample :
  ∃ v0 s0 v1 s1 v2 s2,
    SellerView.handleSuspendSale (Some "Walk-in A") "1714557600000"
      "2024-05-01T10:00:00.000Z" (Fixtures.counter, Fixtures.shop) = ((v0, s0), Ok tt)
    ∧ SellerView.cart v0 = []
    ∧ suspended_sales s0 !! "1714557600000" = Some Fixtures.held_A
    ∧ SellerView.handleResumeSale false Fixtures.held_A (v0, s0) = ((v1, s1), Ok tt)
    ∧ SellerView.cart v1 = Fixtures.cart_A
    ∧ suspended_sales s1 !! "1714557600000" = None
    ∧ SellerView.handleResumeSale true Fixtures.held_A (v1, s1) = ((v2, s2), Ok tt)
    ∧ SellerView.cart v2 = Fixtures.cart_A.
Proof.
  eexists _, _, _, _, _, _.
  split; [vm_compute; reflexivity|].
  split; [reflexivity|].
  split; [reflexivity|].
  split; [vm_compute; reflexivity|].
  split; [reflexivity|].
  split; [reflexivity|].
  split; [vm_compute; reflexivity|].
  reflexivity.
Qed.

(** C8, as the code has it.  Resuming a held cart (with an empty cart, or
    with the seller confirming the overwrite) returns normally, puts exactly
    the held items in the cart and removes the record from the store, leaving
    the other held carts, the catalog, the clients and the ledger as they
    were.  Resuming the same record again does not fail either: it returns
    normally, puts the same items in the cart once more and leaves the store
    as the first resume left it. *)
Theorem handleResumeSale_first_and_again v s suspended confirm :
  suspended_sales s !! SuspendedSale.id suspended = Some suspended →
  SellerView.cart v = [] ∨ confirm = true →
  ∃ v1 s1 v2,
    SellerView.handleResumeSale confirm suspended (v, s) = ((v1, s1), Ok tt)
    ∧ SellerView.cart v1 = SuspendedSale.items suspended
    ∧ suspended_sales s1 !! SuspendedSale.id suspended = None
    ∧ (∀ k, k ≠ SuspendedSale.id suspended →
         suspended_sales s1 !! k = suspended_sales s !! k)
    ∧ products s1 = products s
    ∧ clients s1 = clients s
    ∧ sales s1 = sales s
    ∧ SellerView.handleResumeSale true suspended (v1, s1) = ((v2, s1), Ok tt)
    ∧ SellerView.cart v2 = SuspendedSale.items suspended.
Proof.
  intros _ Hgo. eexists _, _, _.
  split; [apply handleResumeSale_run; assumption|]. simpl.
  assert (Hagain : ∀ v1,
            SellerView.handleResumeSale true suspended
              (v1, with_suspended_sales (delete (SuspendedSale.id suspended)) s)
            = ((SellerView.setShowSuspendedModal false
                  (SellerView.setSuspendedSales
                     (map_to_list
                        (delete (SuspendedSale.id suspended) (suspended_sales s))).*2
                     (SellerView.setClients (map_to_list (clients s)).*2
                        (SellerView.setProducts (map_to_list (products s)).*2
                           (SellerView.setCart (SuspendedSale.items suspended) v1)))),
                with_suspended_sales (delete (SuspendedSale.id suspended)) s), Ok tt)).
  { intros v1. rewrite handleResumeSale_run by (right; reflexivity). simpl.
    unfold with_suspended_sales; simpl.
    rewrite (delete_id (delete _ _)) by apply lookup_delete_eq.
    reflexivity. }
  split; [reflexivity|].
  split; [apply lookup_delete_eq|].
  split; [intros k Hk; apply lookup_delete_ne; congruence|].
  do 3 (split; [reflexivity|]).
  split; [apply Hagain|]. reflexivity.
Qed.

Lemma handleResumeSale_first_and_again_witness :
  ∃ v1 s1 v2,
    SellerView.handleResumeSale false Fixtures.held_A
      (SellerView.setCart [] Fixtures.counter,
       with_suspended_sales (insert "1714557600000" Fixtures.held_A) Fixtures.shop)
    = ((v1, s1), Ok tt)
    ∧ SellerView.cart v1 = Fixtures.cart_A
    ∧ suspended_sales s1 !! "1714557600000" = None
    ∧ SellerView.handleResumeSale true Fixtures.held_A (v1, s1) = ((v2, s1), Ok tt)
    ∧ SellerView.cart v2 = Fixtures.cart_A.
Proof.
  destruct (handleResumeSale_first_and_again (SellerView.setCart [] Fixtures.counter)
              (with_suspended_sales (insert "1714557600000" Fixtures.held_A) Fixtures.shop)
              Fixtures.held_A false)
    as (v1 & s1 & v2 & Hrun & Hcart & Hgone & _ & _ & _ & _ & Hagain & Hcart2).
  - reflexivity.
  - left. reflexivity.
  - exists v1, s1, v2. split_and!; assumption.
Defined.

(** ** Amending a sale *)

Lemma updateSale_run updatedSale s :
  DBService.updateSale updatedSale s
  = (with_sales (alter (Sale.patch updatedSale) (Sale.id updatedSale)) s, Ok tt).
Proof. reflexivity. Qed.

Lemma patch_items_total items total sale :
  Sale.patch (SalesAnalytics.with_items_total items total sale) sale
  = SalesAnalytics.with_items_total items total sale.
Proof.
  unfold Sale.patch, SalesAnalytics.with_items_total; simpl.
  destruct (Sale.clientId sale), (Sale.clientName sale); reflexivity.
Qed.

(** C9, the claim refuted.  [updateSale] writes more than items and total.
    The ledger holds [sale_1], a dispatch sale of seller-1 dated 1 May;
    [updateSale] is handed a sale of the same id with the same items and the
    same total but of type pos, of seller-9, dated 15 June and with no client
    properties.  The stored row keeps its items, its total and its client,
    and has its type, its seller and its date rewritten. *)
Lemma updateSale_rewrites_type_seller_and_date_counterexample :
  ∃ s' row,
    sales Fixtures.shop_with_sales !! Sale.id Fixtures.sale_1_retyped = Some Fixtures.sale_1
    ∧ DBService.updateSale Fixtures.sale_1_retyped Fixtures.shop_with_sales = (s', Ok tt)
    ∧ sales s' !! Sale.id Fixtures.sale_1_retyped = Some row
    ∧ Sale.items row = Sale.items Fixtures.sale_1
    ∧ Sale.totalAmount row = Sale.totalAmount Fixtures.sale_1
    ∧ Sale.clientId row = Sale.clientId Fixtures.sale_1
    ∧ Sale.type Fixtures.sale_1 = dispatch
    ∧ Sale.type row = pos
    ∧ Sale.sellerId Fixtures.sale_1 = "seller-1"
    ∧ Sale.sellerId row = "seller-9"
    ∧ Sale.date Fixtures.sale_1 = "2024-05-01T10:00:00.000Z"
    ∧ Sale.date row = "2024-06-15T09:00:00.000Z".
Proof.
  eexists _, _.
  split; [reflexivity|].
  split; [apply updateSale_run|].
  split; [vm_compute; reflexivity|].
  split_and!; reflexivity.
Qed.

(** C9, as the code has it.  [updateSale] never throws and writes to the
    ledger row of its argument's id and to nothing else: the catalog, the
    clients, the held carts and every other ledger row are as before, and
    when the ledger holds no row of that id the store is unchanged.  In the
    row it overwrites every column its argument carries: id, date, type,
    items, total and seller always, client id and client name when the
    argument has them; a client column the argument lacks keeps its stored
    value.  The edit dialog saves through [updateSale] the sale it was opened
    on, with its items replaced by the edited lines of positive quantity and
    its total by the sum of their subtotals, and closes; so when the sale it
    was opened on is the stored row, that row keeps its id, date, type,
    client and seller, and only its items and its total are replaced. *)
Theorem updateSale_writes_the_columns_it_is_given v s updatedSale sale :
  let filteredItems :=
    filter (λ i, 0 < SaleItem.quantity i) (SalesAnalytics.editItems v) in
  let saved :=
    SalesAnalytics.with_items_total filteredItems (DBService.totalAmount_of filteredItems)
      sale in
  (∃ s',
     DBService.updateSale updatedSale s = (s', Ok tt)
     ∧ products s' = products s
     ∧ clients s' = clients s
     ∧ suspended_sales s' = suspended_sales s
     ∧ (∀ k, k ≠ Sale.id updatedSale → sales s' !! k = sales s !! k)
     ∧ (sales s !! Sale.id updatedSale = None → s' = s)
     ∧ (∀ old, sales s !! Sale.id updatedSale = Some old →
          ∃ row,
            sales s' !! Sale.id updatedSale = Some row
            ∧ Sale.id row = Sale.id updatedSale
            ∧ Sale.date row = Sale.date updatedSale
            ∧ Sale.type row = Sale.type updatedSale
            ∧ Sale.items row = Sale.items updatedSale
            ∧ Sale.totalAmount row = Sale.totalAmount updatedSale
            ∧ Sale.sellerId row = Sale.sellerId updatedSale
            ∧ (∀ c, Sale.clientId updatedSale = Some c → Sale.clientId row = Some c)
            ∧ (Sale.clientId updatedSale = None → Sale.clientId row = Sale.clientId old)
            ∧ (∀ n, Sale.clientName updatedSale = Some n → Sale.clientName row = Some n)
            ∧ (Sale.clientName updatedSale = None
               → Sale.clientName row = Sale.clientName old)))
  ∧ (SalesAnalytics.selectedSale v = Some sale →
     ∃ v' s',
       SalesAnalytics.saveEditedSale (v, s) = ((v', s'), Ok tt)
       ∧ DBService.updateSale saved s = (s', Ok tt)
       ∧ SalesAnalytics.selectedSale v' = None
       ∧ SalesAnalytics.isEditingSale v' = false
       ∧ Sale.items saved = filteredItems
       ∧ Sale.totalAmount saved = DBService.totalAmount_of filteredItems
       ∧ Sale.id saved = Sale.id sale
       ∧ Sale.date saved = Sale.date sale
       ∧ Sale.type saved = Sale.type sale
       ∧ Sale.clientId saved = Sale.clientId sale
       ∧ Sale.clientName saved = Sale.clientName sale
       ∧ Sale.sellerId saved = Sale.sellerId sale
       ∧ (sales s !! Sale.id sale = Some sale → sales s' !! Sale.id sale = Some saved)).
Proof.
  intros filteredItems saved. split.
  - eexists. split; [apply updateSale_run|]. simpl.
    split_and!; try reflexivity.
    + intros k Hk. rewrite lookup_alter_ne by congruence. reflexivity.
    + intros Hnone. destruct s as [pr cl sa su]; unfold with_sales; simpl in *.
      f_equal. apply alter_missing. assumption.
    + intros old Hold. eexists.
      split; [rewrite lookup_alter, decide_True, Hold by reflexivity; reflexivity|].
      simpl. split_and!; try reflexivity.
      * intros c Hc. rewrite Hc. reflexivity.
      * intros Hc. rewrite Hc. reflexivity.
      * intros n Hn. rewrite Hn. reflexivity.
      * intros Hn. rewrite Hn. reflexivity.
  - intros Hsel. eexists _, _.
    split.
    { unfold SalesAnalytics.saveEditedSale, bind, get_state, gets, db, set_state, modify.
      simpl. rewrite Hsel. reflexivity. }
    simpl. split_and!; try reflexivity.
    intros Hrow. rewrite lookup_alter, decide_True, Hrow by reflexivity. simpl.
    f_equal. apply patch_items_total.
Qed.

Lemma updateSale_writes_the_columns_it_is_given_witness :
  (∃ s' row,
     DBService.updateSale Fixtures.sale_1_retyped Fixtures.shop_with_sales = (s', Ok tt)
     ∧ sales s' !! Sale.id Fixtures.sale_1 = Some row
     ∧ Sale.type row = pos
     ∧ Sale.sellerId row = "seller-9"
     ∧ Sale.clientId row = Some "C"
     ∧ sales s' !! Sale.id Fixtures.sale_0 = Some Fixtures.sale_0)
  ∧ (∃ v' s' row,
       SalesAnalytics.saveEditedSale (Fixtures.editing_sale_1, Fixtures.shop_with_sales)
       = ((v', s'), Ok tt)
       ∧ sales s' !! Sale.id Fixtures.sale_1 = Some row
       ∧ Sale.items row = [Fixtures.two_Q]
       ∧ Sale.totalAmount row = 10
       ∧ Sale.type row = dispatch
       ∧ Sale.sellerId row = "seller-1").
Proof.
  pose proof (updateSale_writes_the_columns_it_is_given Fixtures.editing_sale_1
                Fixtures.shop_with_sales Fixtures.sale_1_retyped Fixtures.sale_1) as H.
  cbv zeta in H.
  destruct H as [(u' & Hupd & _ & _ & _ & Hothers & _ & Hrow) Hsave].
  destruct (Hrow Fixtures.sale_1 eq_refl)
    as (row & Hlook & _ & _ & Htype & _ & _ & Hseller & _ & Hclient & _).
  destruct (Hsave eq_refl) as (v' & s' & Hrun & _ & _ & _ & _ & _ & _ & _ & _ & _ & _ & _
                               & Hsaved).
  split.
  - exists u', row. split; [assumption|]. split; [assumption|].
    split; [rewrite Htype; reflexivity|].
    split; [rewrite Hseller; reflexivity|].
    split; [rewrite Hclient by reflexivity; reflexivity|].
    rewrite Hothers by discriminate. reflexivity.
  - exists v', s'. eexists. split; [assumption|].
    split; [apply Hsaved; reflexivity|].
    split_and!; reflexivity.
Defined.

(** ** Reading the ledger *)

Lemma string_compare_OT (a b : string) : String.compare a b = String_as_OT.compare a b.
Proof.
  revert b; induction a as [|c a IH]; intros [|d b]; reflexivity.
Qed.

Lemma string_leb_iff (a b : string) :
  String.leb a b = true ↔ a = b ∨ String_as_OT.lt a b.
Proof.
  unfold String.leb. rewrite string_compare_OT.
  destruct (String_as_OT.compare_spec a b) as [Heq|Hlt|Hgt]; split; auto;
    try discriminate.
  intros [->|Hlt]; exfalso.
  - exact (StrictOrder_Irreflexive _ Hgt).
  - exact (StrictOrder_Irreflexive _ (StrictOrder_Transitive _ _ _ Hgt Hlt)).
Qed.

#[global] Instance date_desc_total : Total DBService.date_desc.
Proof. intros a b. unfold DBService.date_desc. destruct (String.leb_total (Sale.date a) (Sale.date b)); auto. Qed.

#[global] Instance date_desc_trans : Transitive DBService.date_desc.
Proof.
  intros a b c. unfold DBService.date_desc. rewrite !string_leb_iff.
  intros [Hba|Hba] [Hcb|Hcb].
  - left; congruence.
  - right. rewrite <- Hba. assumption.
  - right. rewrite Hcb. assumption.
  - right. exact (StrictOrder_Transitive _ _ _ Hcb Hba).
Qed.

(** C10.  [getSales] returns normally in every state of the store, changes
    nothing, and what it returns is the ledger (the same sales, each as many
    times as it is on file) in descending order of [date]: no sale of the list
    has an earlier date than a sale that comes after it. *)
Theorem getSales_newest_first s :
  ∃ l,
    DBService.getSales s = (s, Ok l)
    ∧ l ≡ₚ (map_to_list (sales s)).*2
    ∧ (∀ sale, sale ∈ l ↔ ∃ k, sales s !! k = Some sale)
    ∧ StronglySorted DBService.date_desc l
    ∧ (∀ i j a b, (i < j)%nat → l !! i = Some a → l !! j = Some b →
         String.leb (Sale.date b) (Sale.date a) = true).
Proof.
  exists (merge_sort DBService.date_desc (map_to_list (sales s)).*2).
  assert (Hperm := merge_sort_Permutation DBService.date_desc (map_to_list (sales s)).*2).
  assert (Hsorted := StronglySorted_merge_sort DBService.date_desc
                       (map_to_list (sales s)).*2).
  split_and!; try assumption.
  - reflexivity.
  - intros sale. rewrite Hperm, list_elem_of_fmap. split.
    + intros [[k x] [-> Hin]]. exists k. apply elem_of_map_to_list in Hin. assumption.
    + intros [k Hk]. exists (k, sale). split; [reflexivity|].
      apply elem_of_map_to_list. assumption.
  - revert Hsorted. generalize (merge_sort DBService.date_desc (map_to_list (sales s)).*2).
    intros l Hsorted. induction Hsorted as [|x l Hl IH Hx]; intros i j a b Hij Ha Hb.
    + rewrite lookup_nil in Ha. discriminate.
    + destruct j as [|j]; [lia|]. simpl in Hb. destruct i as [|i]; simpl in Ha.
      * injection Ha as ->. rewrite Forall_forall in Hx.
        apply (Hx b). apply list_elem_of_lookup. eauto.
      * apply (IH i j); [lia | assumption..].
Qed.

(** ** Parking a cart and taking it back *)

Lemma handleSuspendSale_run refName ms now v s :
  SellerView.cart v ≠ [] →
  refName ≠ "" →
  suspended_sales s !! ms = None →
  let held :=
    {| SuspendedSale.id := ms; SuspendedSale.customerName := refName;
       SuspendedSale.items := SellerView.cart v; SuspendedSale.date := now;
       SuspendedSale.total := SellerView.cartTotal (SellerView.cart v) |} in
  SellerView.handleSuspendSale (Some refName) ms now (v, s)
  = ((SellerView.setSuspendedSales
        (map_to_list (<[ms := held]> (suspended_sales s))).*2
        (SellerView.setClients (map_to_list (clients s)).*2
           (SellerView.setProducts (map_to_list (products s)).*2
              (SellerView.setCart [] v))),
      with_suspended_sales (insert ms held) s), Ok tt).
Proof.
  intros Hcart Hname Hfresh held.
  unfold SellerView.handleSuspendSale, bind, get_state, gets; simpl.
  destruct (SellerView.cart v) as [|item rest] eqn:Hc; [congruence|].
  rewrite decide_False by assumption.
  unfold db, DBService.addSuspendedSale, supabase.insert, bind; simpl.
  rewrite Hfresh. reflexivity.
Qed.

(** Holding is not a sale.  Parking a non-empty cart under a non-empty
    reference name and an id no held cart has yet empties the cart and files
    one record that carries the cart's items and total; the catalog, the
    clients and the ledger are untouched.  Resuming that record gives back
    exactly the parked items and leaves the suspended-sale store as it was
    before the cart was parked. *)
Theorem hold_then_resume_gives_the_cart_back refName ms now v s :
  SellerView.cart v ≠ [] →
  refName ≠ "" →
  suspended_sales s !! ms = None →
  ∃ v0 s0 held v1 s1,
    SellerView.handleSuspendSale (Some refName) ms now (v, s) = ((v0, s0), Ok tt)
    ∧ SellerView.cart v0 = []
    ∧ suspended_sales s0 = <[ms := held]> (suspended_sales s)
    ∧ SuspendedSale.items held = SellerView.cart v
    ∧ SuspendedSale.total held = SellerView.cartTotal (SellerView.cart v)
    ∧ products s0 = products s
    ∧ clients s0 = clients s
    ∧ sales s0 = sales s
    ∧ SellerView.handleResumeSale false held (v0, s0) = ((v1, s1), Ok tt)
    ∧ SellerView.cart v1 = SellerView.cart v
    ∧ s1 = s.
Proof.
  intros Hcart Hname Hfresh.
  pose proof (handleSuspendSale_run refName ms now v s Hcart Hname Hfresh) as Hhold.
  simpl in Hhold.
  eexists _, _, _, _, _.
  split; [exact Hhold|].
  do 7 (split; [reflexivity|]).
  split; [apply handleResumeSale_run; left; reflexivity|].
  split; [reflexivity|].
  destruct s as [pr cl sa su]. unfold with_suspended_sales; simpl in *.
  f_equal. apply delete_insert_id. assumption.
Qed.

Lemma hold_then_resume_gives_the_cart_back_witness :
  ∃ v0 s0 held v1,
    SellerView.handleSuspendSale (Some "Walk-in A") "1714557600000"
      "2024-05-01T10:00:00.000Z" (Fixtures.counter, Fixtures.shop) = ((v0, s0), Ok tt)
    ∧ SuspendedSale.total held = 15
    ∧ SellerView.handleResumeSale false held (v0, s0) = ((v1, Fixtures.shop), Ok tt)
    ∧ SellerView.cart v1 = Fixtures.cart_A.
Proof.
  destruct (hold_then_resume_gives_the_cart_back "Walk-in A" "1714557600000"
              "2024-05-01T10:00:00.000Z" Fixtures.counter Fixtures.shop)
    as (v0 & s0 & held & v1 & s1 & Hhold & _ & _ & _ & Htotal & _ & _ & _ & Hres
        & Hcart & ->).
  - discriminate.
  - discriminate.
  - reflexivity.
  - exists v0, s0, held, v1. rewrite Htotal. split_and!; assumption || reflexivity.
Defined.

(** The sale a checkout persists is worth what the cart shows: every item's
    subtotal is its unit price times its quantity, and the total of the items
    built from the cart is the cart total. *)
Theorem checkout_total_is_cart_total (cart : list CartItem.t) :
  Forall (λ item, SaleItem.subtotal item = SaleItem.unitPrice item * SaleItem.quantity item)
    (SellerView.saleItems_of cart)
  ∧ DBService.totalAmount_of (SellerView.saleItems_of cart) = SellerView.cartTotal cart.
Proof.
  split.
  - unfold SellerView.saleItems_of. apply Forall_fmap, Forall_forall.
    intros item _. reflexivity.
  - unfold DBService.totalAmount_of, SellerView.cartTotal, SellerView.saleItems_of.
    generalize 0. induction cart as [|item rest IH]; intros acc; simpl.
    + reflexivity.
    + apply IH.
Qed.

(** ** Sums over the rows of a table *)

Lemma foldl_sum_with {A : Type} (f : A → Z) (acc : Z) (l : list A) :
  foldl (λ sum x, sum + f x) acc l = acc + sum_with f l.
Proof.
  revert acc; induction l as [|x l IH]; intros acc; simpl.
  - lia.
  - rewrite IH; lia.
Qed.

Lemma sum_with_app {A : Type} (f : A → Z) (l1 l2 : list A) :
  sum_with f (l1 ++ l2) = sum_with f l1 + sum_with f l2.
Proof. induction l1 as [|x l1 IH]; simpl; [reflexivity | rewrite IH; lia]. Qed.

(** ** A second sale of the same items *)

(** The sale methods take no sale id from their caller: each call draws its
    own.  Two calls with the same items, each under the id drawn for it (two
    ids, neither yet in the ledger), both return normally; the ledger holds
    both sales and every product has lost twice the quantity the items take
    of it.  After two such dispatch sales to a client on file the client's
    debt has been raised by the total of the items, and then by that total
    again. *)
Theorem sale_creation_under_two_ids_applies_twice
    s uuid1 uuid2 now1 now2 items sellerId :
  sales s !! uuid1 = None →
  sales s !! uuid2 = None →
  uuid1 ≠ uuid2 →
  (∃ s1 s2,
     DBService.createRetailSale uuid1 now1 items sellerId s = (s1, Ok tt)
     ∧ DBService.createRetailSale uuid2 now2 items sellerId s1 = (s2, Ok tt)
     ∧ sales s2 !! uuid1 = Some (retail_sale uuid1 now1 items sellerId)
     ∧ sales s2 !! uuid2 = Some (retail_sale uuid2 now2 items sellerId)
     ∧ size (sales s2) = S (S (size (sales s)))
     ∧ (∀ pid, products s2 !! pid
               = take (2 * quantity_of pid items) <$> products s !! pid))
  ∧ (∀ clientId client,
       clients s !! clientId = Some client →
       ∃ s1 s2,
         DBService.createDispatchSale uuid1 now1 clientId items sellerId s = (s1, Ok tt)
         ∧ DBService.createDispatchSale uuid2 now2 clientId items sellerId s1 = (s2, Ok tt)
         ∧ is_Some (sales s2 !! uuid1)
         ∧ is_Some (sales s2 !! uuid2)
         ∧ size (sales s2) = S (S (size (sales s)))
         ∧ Client.debt <$> clients s2 !! clientId
           = Some (Client.debt client + DBService.totalAmount_of items
                   + DBService.totalAmount_of items)
         ∧ (∀ pid, products s2 !! pid
                   = take (2 * quantity_of pid items) <$> products s !! pid)).
Proof.
  intros Hfresh1 Hfresh2 Hne.
  assert (Htwice : ∀ (m : gmap string Product.t) pid,
            take_all items (take_all items m) !! pid
            = take (2 * quantity_of pid items) <$> m !! pid).
  { intros m pid. rewrite !lookup_take_all.
    destruct (m !! pid) as [p|]; simpl; [|reflexivity].
    rewrite take_take. do 2 f_equal. lia. }
  split.
  - eexists _, _.
    split; [apply createRetailSale_run; assumption|].
    split; [apply createRetailSale_run; simpl; rewrite lookup_insert_ne by congruence;
            assumption|].
    simpl. split_and!.
    + rewrite lookup_insert_ne, lookup_insert_eq by congruence. reflexivity.
    + rewrite lookup_insert_eq. reflexivity.
    + rewrite !map_size_insert_None; [reflexivity | assumption |].
      rewrite lookup_insert_ne by congruence. assumption.
    + apply Htwice.
  - intros clientId client Hclient. eexists _, _.
    split; [apply createDispatchSale_run; eassumption|].
    split.
    { apply (createDispatchSale_run _ _ _ _ _ _
               (Client.set_debt (Client.debt client + DBService.totalAmount_of items)
                  client)); simpl.
      - rewrite lookup_alter, decide_True, Hclient by reflexivity. reflexivity.
      - rewrite lookup_insert_ne by congruence. assumption. }
    simpl. split_and!.
    + rewrite lookup_insert_ne, lookup_insert_eq by congruence. eauto.
    + rewrite lookup_insert_eq. eauto.
    + rewrite !map_size_insert_None; [reflexivity | assumption |].
      rewrite lookup_insert_ne by congruence. assumption.
    + rewrite !lookup_alter, !decide_True, Hclient by reflexivity. reflexivity.
    + apply Htwice.
Qed.

Lemma sale_creation_under_two_ids_applies_twice_witness :
  (∃ s2,
     (DBService.createRetailSale Fixtures.uuid2 Fixtures.t2 [Fixtures.four_P] "seller-1"
        (DBService.createRetailSale Fixtures.uuid1 Fixtures.t1 [Fixtures.four_P]
           "seller-1" Fixtures.shop).1) = (s2, Ok tt)
     ∧ Product.stock <$> products s2 !! "P" = Some 2
     ∧ size (sales s2) = 2%nat)
  ∧ (∃ s2,
       (DBService.createDispatchSale Fixtures.uuid2 Fixtures.t2 "C" [Fixtures.four_P]
          "seller-1"
          (DBService.createDispatchSale Fixtures.uuid1 Fixtures.t1 "C" [Fixtures.four_P]
             "seller-1" Fixtures.shop).1) = (s2, Ok tt)
       ∧ Client.debt <$> clients s2 !! "C" = Some 28).
Proof.
  destruct (sale_creation_under_two_ids_applies_twice Fixtures.shop Fixtures.uuid1
              Fixtures.uuid2 Fixtures.t1 Fixtures.t2 [Fixtures.four_P] "seller-1")
    as [(r1 & r2 & Hr1 & Hr2 & _ & _ & Hsize & Hstock) Hdispatch].
  - reflexivity.
  - reflexivity.
  - discriminate.
  - destruct (Hdispatch "C" Fixtures.C) as (d1 & d2 & Hd1 & Hd2 & _ & _ & _ & Hdebt & _).
    + reflexivity.
    + split.
      * exists r2. rewrite Hr1. simpl. split; [assumption|].
        split; [rewrite Hstock | rewrite Hsize]; reflexivity.
      * exists d2. rewrite Hd1. simpl. split; [assumption|]. rewrite Hdebt. reflexivity.
Defined.

(** ** Payments, again *)

(** A payment throws exactly when the client is not on file, and then the
    store is as before. *)
Theorem registerClientPayment_throws_iff_unknown_client s clientId amount :
  let out := DBService.registerClientPayment clientId amount s in
  (out.2 = Throw (JsError "Cliente no encontrado") ↔ clients s !! clientId = None)
  ∧ (out.2 = Ok tt ↔ is_Some (clients s !! clientId))
  ∧ (clients s !! clientId = None → out.1 = s).
Proof.
  intros out; subst out.
  destruct (clients s !! clientId) as [client|] eqn:Hclient.
  - rewrite (registerClientPayment_run _ _ _ client) by assumption. simpl.
    split_and!; [split; discriminate | split; eauto | discriminate].
  - unfold DBService.registerClientPayment, supabase.select_single, bind, gets; simpl.
    rewrite Hclient. simpl.
    split_and!; [split; reflexivity | split; [discriminate | intros [? [=]]] | reflexivity].
Qed.

(** ** The catalog *)

Lemma upsert_as_insert {R : Type} (patch : R → R → R) (row : R) k (m : gmap string R) :
  partial_alter (λ stored, match stored with
                           | Some old => Some (patch row old)
                           | None => Some row
                           end) k m
  = <[k := match m !! k with Some old => patch row old | None => row end]> m.
Proof.
  apply map_eq; intros j. destruct (decide (k = j)) as [->|Hne].
  - rewrite lookup_partial_alter_eq, lookup_insert_eq. destruct (m !! j); reflexivity.
  - rewrite lookup_partial_alter_ne, lookup_insert_ne by assumption. reflexivity.
Qed.

Lemma updateProduct_run p s :
  DBService.updateProduct p s
  = (with_products
       (insert (Product.id p)
          match products s !! Product.id p with
          | Some old => Product.patch p old
          | None => p
          end) s, Ok tt).
Proof.
  unfold DBService.updateProduct, supabase.upsert, bind; simpl.
  unfold with_products. rewrite upsert_as_insert. reflexivity.
Qed.

Lemma updateClient_run c s :
  DBService.updateClient c s = (with_clients (insert (Client.id c) c) s, Ok tt).
Proof.
  unfold DBService.updateClient, supabase.upsert, bind; simpl.
  unfold with_clients. rewrite upsert_as_insert.
  destruct (clients s !! Client.id c); reflexivity.
Qed.

Lemma deleteProduct_run id s :
  DBService.deleteProduct id s = (with_products (delete id) s, Ok tt).
Proof. reflexivity. Qed.

Lemma patch_same_product p row :
  Product.patch p (Product.patch p row) = Product.patch p row.
Proof. unfold Product.patch; simpl. destruct (Product.image p); reflexivity. Qed.

(** Saving a product writes, under the product's id and nowhere else, every
    column the saved form carries: name, prices, cost, stock and category
    are the form's, and so is the image when the form has one; a form
    without an image leaves the stored image as it is, and a product that
    was not on file is filed as given.  The catalog then lists the row, and
    saving the same form again changes nothing.  In particular the stock of
    the form replaces whatever sales took off the shelf since the form was
    filled: after a retail sale, saving the form puts the form's stock
    back. *)
Theorem updateProduct_overwrites_the_row s p uuid now items sellerId :
  ∃ s' row,
    DBService.updateProduct p s = (s', Ok tt)
    ∧ products s' !! Product.id p = Some row
    ∧ Product.id row = Product.id p
    ∧ Product.name row = Product.name p
    ∧ Product.priceRetail row = Product.priceRetail p
    ∧ Product.priceWholesale row = Product.priceWholesale p
    ∧ Product.cost row = Product.cost p
    ∧ Product.stock row = Product.stock p
    ∧ Product.category row = Product.category p
    ∧ (∀ i, Product.image p = Some i → Product.image row = Some i)
    ∧ (Product.image p = None →
       Product.image row = products s !! Product.id p ≫= Product.image)
    ∧ (products s !! Product.id p = None → row = p)
    ∧ (∀ k, k ≠ Product.id p → products s' !! k = products s !! k)
    ∧ (∃ l, DBService.getProducts s' = (s', Ok l) ∧ row ∈ l)
    ∧ DBService.updateProduct p s' = (s', Ok tt)
    ∧ clients s' = clients s
    ∧ sales s' = sales s
    ∧ Product.stock
        <$> products
              (DBService.updateProduct p
                 (DBService.createRetailSale uuid now items sellerId s').1).1
            !! Product.id p
      = Some (Product.stock p).
Proof.
  eexists _, _. split; [apply updateProduct_run|].
  split; [apply lookup_insert_eq|].
  destruct (products s !! Product.id p) as [old|] eqn:Hold.
  - split_and!; try reflexivity.
    + intros i Hi. simpl. rewrite Hi. reflexivity.
    + intros Hi. simpl. rewrite Hi. reflexivity.
    + intros [=].
    + intros k Hk. apply lookup_insert_ne. congruence.
    + eexists. split; [reflexivity|]. simpl.
      apply list_elem_of_fmap. exists (Product.id p, Product.patch p old).
      split; [reflexivity|]. apply elem_of_map_to_list, lookup_insert_eq.
    + rewrite updateProduct_run. simpl. rewrite lookup_insert_eq, patch_same_product.
      f_equal. unfold with_products; simpl. rewrite insert_insert_eq. reflexivity.
    + rewrite updateProduct_run. simpl. rewrite lookup_insert_eq. simpl.
      match goal with
      | |- context [match ?x with Some _ => _ | None => _ end] => destruct x
      end; reflexivity.
  - split_and!; try reflexivity.
    + intros i Hi. assumption.
    + intros Hi. assumption.
    + intros k Hk. apply lookup_insert_ne. congruence.
    + eexists. split; [reflexivity|]. simpl.
      apply list_elem_of_fmap. exists (Product.id p, p).
      split; [reflexivity|]. apply elem_of_map_to_list, lookup_insert_eq.
    + rewrite updateProduct_run. simpl. rewrite lookup_insert_eq.
      assert (Hp : Product.patch p p = p).
      { destruct p as [? ? ? ? ? ? ? [i|]]; reflexivity. }
      rewrite Hp. f_equal. unfold with_products; simpl.
      rewrite insert_insert_eq. reflexivity.
    + rewrite updateProduct_run. simpl. rewrite lookup_insert_eq. simpl.
      match goal with
      | |- context [match ?x with Some _ => _ | None => _ end] => destruct x
      end; reflexivity.
Qed.

(** Deleting a product removes its row and nothing else: the other products,
    the clients and the ledger, with the item lines of past sales, stay.  A
    later retail sale of the deleted product is still recorded, and changes
    no stock. *)
Theorem deleteProduct_keeps_history s id :
  ∃ s1,
    DBService.deleteProduct id s = (s1, Ok tt)
    ∧ products s1 !! id = None
    ∧ (∀ k, k ≠ id → products s1 !! k = products s !! k)
    ∧ sales s1 = sales s
    ∧ clients s1 = clients s
    ∧ DBService.deleteProduct id s1 = (s1, Ok tt)
    ∧ (∀ uuid now item sellerId,
         SaleItem.productId item = id →
         sales s1 !! uuid = None →
         ∃ s2,
           DBService.createRetailSale uuid now [item] sellerId s1 = (s2, Ok tt)
           ∧ products s2 = products s1
           ∧ Sale.items <$> sales s2 !! uuid = Some [item]).
Proof.
  eexists. split; [apply deleteProduct_run|].
  split_and!; try reflexivity.
  - apply lookup_delete_eq.
  - intros k Hk. apply lookup_delete_ne. congruence.
  - rewrite deleteProduct_run. f_equal.
    unfold with_products; simpl. rewrite delete_id by apply lookup_delete_eq.
    reflexivity.
  - intros uuid now item sellerId Hid Hfresh.
    eexists. split; [apply createRetailSale_run; assumption|]. simpl.
    split.
    + rewrite Hid. apply alter_missing, lookup_delete_eq.
    + rewrite lookup_insert_eq. reflexivity.
Qed.

(** Saving and deleting undo each other: saving a product whose id the
    catalog does not hold and then deleting that id gives the store back, and
    so does deleting a product and then saving the row that was deleted. *)
Theorem catalog_save_and_delete_undo_each_other s p :
  (products s !! Product.id p = None →
   (DBService.deleteProduct (Product.id p) (DBService.updateProduct p s).1).1 = s)
  ∧ (products s !! Product.id p = Some p →
     (DBService.updateProduct p (DBService.deleteProduct (Product.id p) s).1).1 = s).
Proof.
  split; intros Hp.
  - rewrite updateProduct_run, deleteProduct_run; simpl.
    destruct s as [pr cl sa su]; unfold with_products; simpl in *. f_equal.
    apply delete_insert_id. assumption.
  - rewrite deleteProduct_run, updateProduct_run; simpl.
    rewrite lookup_delete_eq.
    destruct s as [pr cl sa su]; unfold with_products; simpl in *. f_equal.
    rewrite insert_delete_eq. apply insert_id. assumption.
Qed.

(** ** What no sequence of calls does *)

Lemma exec_keeps_ids c s :
  dom (sales s) ⊆ dom (sales (exec c s).1)
  ∧ dom (clients s) ⊆ dom (clients (exec c s).1).
Proof.
  destruct c as [p|id|c|clientId amount|sale|id|sale|uuid now items sellerId
                 |uuid now clientId items sellerId]; cbn [exec].
  - rewrite updateProduct_run. split; reflexivity.
  - split; reflexivity.
  - rewrite updateClient_run. split; [reflexivity|]. simpl. rewrite dom_insert. set_solver.
  - destruct (clients s !! clientId) as [client|] eqn:Hclient.
    + rewrite (registerClientPayment_run _ _ _ client) by assumption. simpl.
      split; [reflexivity|]. rewrite dom_alter. reflexivity.
    + unfold DBService.registerClientPayment, supabase.select_single, bind, gets; simpl.
      rewrite Hclient. split; reflexivity.
  - unfold DBService.addSuspendedSale, supabase.insert, bind; simpl.
    destruct (suspended_sales s !! SuspendedSale.id sale); split; reflexivity.
  - split; reflexivity.
  - split; [|reflexivity]. simpl. rewrite dom_alter. reflexivity.
  - destruct (sales s !! uuid) as [old|] eqn:Hsale.
    + rewrite createRetailSale_taken by (rewrite Hsale; eauto). split; reflexivity.
    + rewrite createRetailSale_run by assumption. simpl.
      split; [|reflexivity]. rewrite dom_insert. set_solver.
  - destruct (clients s !! clientId) as [client|] eqn:Hclient.
    + destruct (sales s !! uuid) as [old|] eqn:Hsale.
      * rewrite (createDispatchSale_taken _ _ _ _ _ _ client) by (rewrite ?Hsale; eauto).
        split; reflexivity.
      * rewrite (createDispatchSale_run _ _ _ _ _ _ client) by assumption. simpl.
        split; [rewrite dom_insert; set_solver | rewrite dom_alter; reflexivity].
    + rewrite createDispatchSale_no_client by assumption. split; reflexivity.
Qed.

(** Whatever calls of the service are made, in whatever order and with
    whatever arguments, no sale and no client that is on file disappears:
    the service has no call that deletes either. *)
Theorem no_call_removes_a_sale_or_a_client cs s :
  dom (sales s) ⊆ dom (sales (run_all cs s))
  ∧ dom (clients s) ⊆ dom (clients (run_all cs s)).
Proof.
  revert s; induction cs as [|c cs IH]; intros s; simpl.
  - split; reflexivity.
  - destruct (exec_keeps_ids c s) as [Hs Hc].
    destruct (IH (exec c s).1) as [Hs' Hc'].
    split; etransitivity; eassumption.
Qed.

Lemma exec_keeps_debts_non_negative c s :
  debts_non_negative s → charges_nothing_negative c → debts_non_negative (exec c s).1.
Proof.
  unfold debts_non_negative. intros Hs Hc.
  assert (Halter : ∀ k v,
            0 ≤ v → map_Forall (λ _ c, 0 ≤ Client.debt c)
                      (alter (Client.set_debt v) k (clients s))).
  { intros k v Hv j x. rewrite lookup_alter. case_decide.
    - destruct (clients s !! k); simpl; intros [= <-]. simpl. assumption.
    - apply Hs. }
  destruct c as [p|id|c|clientId amount|sale|id|sale|uuid now items sellerId
                 |uuid now clientId items sellerId];
    cbn [exec charges_nothing_negative] in *; try assumption.
  - rewrite updateClient_run. apply map_Forall_insert_2; assumption.
  - destruct (clients s !! clientId) as [client|] eqn:Hclient.
    + rewrite (registerClientPayment_run _ _ _ client) by assumption. simpl.
      apply Halter. lia.
    + unfold DBService.registerClientPayment, supabase.select_single, bind, gets; simpl.
      rewrite Hclient. assumption.
  - unfold DBService.addSuspendedSale, supabase.insert, bind; simpl.
    destruct (suspended_sales s !! SuspendedSale.id sale); assumption.
  - destruct (sales s !! uuid) as [old|] eqn:Hsale.
    + rewrite createRetailSale_taken by (rewrite Hsale; eauto). assumption.
    + rewrite createRetailSale_run by assumption. assumption.
  - destruct (clients s !! clientId) as [client|] eqn:Hclient.
    + destruct (sales s !! uuid) as [old|] eqn:Hsale.
      * rewrite (createDispatchSale_taken _ _ _ _ _ _ client) by (rewrite ?Hsale; eauto).
        assumption.
      * rewrite (createDispatchSale_run _ _ _ _ _ _ client) by assumption. simpl.
        apply Halter. rewrite totalAmount_of_sum.
        specialize (Hs clientId client Hclient). simpl in Hs. lia.
    + rewrite createDispatchSale_no_client by assumption. assumption.
Qed.

(** When no client owes a negative amount, no sequence of calls in which
    every client is saved with a non-negative debt and every dispatch sale
    has a non-negative sum of subtotals leaves a client with a negative
    debt: payments clamp at zero and charges only add. *)
Theorem debts_stay_non_negative cs s :
  debts_non_negative s →
  Forall charges_nothing_negative cs →
  debts_non_negative (run_all cs s).
Proof.
  revert s; induction cs as [|c cs IH]; intros s Hs Hcs; simpl.
  - assumption.
  - apply Forall_cons in Hcs as [Hc Hcs].
    apply IH; [|assumption]. apply exec_keeps_debts_non_negative; assumption.
Qed.

Lemma debts_stay_non_negative_witness :
  debts_non_negative Fixtures.shop
  ∧ debts_non_negative
      (run_all [ CreateDispatchSale Fixtures.uuid1 Fixtures.t1 "C" [Fixtures.two_Q]
                   "seller-1";
                 RegisterClientPayment "C" 100;
                 RegisterClientPayment "D" (-5) ] Fixtures.shop).
Proof.
  assert (H0 : debts_non_negative Fixtures.shop).
  { apply (bool_decide_unpack _). vm_compute. exact I. }
  split; [exact H0|].
  apply debts_stay_non_negative; [exact H0|].
  repeat constructor. simpl. lia.
Defined.

Lemma catalog_save_and_delete_undo_each_other_witness :
  (DBService.deleteProduct "G" (DBService.updateProduct Fixtures.G Fixtures.shop).1).1
  = Fixtures.shop
  ∧ (DBService.updateProduct Fixtures.P (DBService.deleteProduct "P" Fixtures.shop).1).1
    = Fixtures.shop.
Proof.
  split.
  - apply (proj1 (catalog_save_and_delete_undo_each_other Fixtures.shop Fixtures.G)).
    reflexivity.
  - apply (proj2 (catalog_save_and_delete_undo_each_other Fixtures.shop Fixtures.P)).
    reflexivity.
Defined.

(** ** Seeding the catalog *)

Lemma select_limit_1_empty (m : gmap string Product.t) :
  firstn 1 (map_to_list m).*2 = [] ↔ m = ∅.
Proof.
  split.
  - intros Htake. apply map_to_list_empty_iff.
    destruct (map_to_list m) as [|kv l]; [reflexivity | discriminate].
  - intros ->. rewrite map_to_list_empty. reflexivity.
Qed.

Lemma lookup_foldl_insert (rows : list Product.t) (m : gmap string Product.t) k p :
  NoDup (Product.id <$> rows) →
  (∀ r, r ∈ rows → m !! Product.id r = None) →
  foldl (λ m row, <[Product.id row := row]> m) m rows !! k = Some p
  ↔ m !! k = Some p ∨ (p ∈ rows ∧ Product.id p = k).
Proof.
  revert m; induction rows as [|r rows IH]; intros m Hnd Hfree; simpl.
  - split; [auto | intros [?|[Hin _]]; [assumption | inversion Hin]].
  - rewrite fmap_cons in Hnd. apply NoDup_cons in Hnd as [Hr Hnd].
    rewrite IH; [|assumption|].
    + rewrite lookup_insert. case_decide as Hk.
      * subst k. rewrite (Hfree r) by apply list_elem_of_here. split.
        -- intros [[= <-]|[Hin Hid]].
           ++ right. split; [apply list_elem_of_here | reflexivity].
           ++ right. split; [apply list_elem_of_further; assumption | assumption].
        -- intros [?|[Hin Hid]]; [discriminate|].
           apply elem_of_cons in Hin as [->|Hin]; [left; reflexivity|].
           right. split; assumption.
      * split.
        -- intros [?|[Hin Hid]]; [left; assumption|].
           right. split; [apply list_elem_of_further; assumption | assumption].
        -- intros [?|[Hin Hid]]; [left; assumption|].
           apply elem_of_cons in Hin as [->|Hin]; [congruence|].
           right. split; assumption.
    + intros r' Hin. rewrite lookup_insert_ne.
      * apply Hfree. apply list_elem_of_further. assumption.
      * intros Heq. apply Hr. rewrite Heq. apply list_elem_of_fmap.
        exists r'. split; [reflexivity | assumption].
Qed.

(** [init] always returns normally and writes to the catalog only.  A
    catalog that holds a product is left exactly as it is.  An empty catalog
    receives the initial products, each under its id and nothing else, when
    their ids are all different; when two of them share an id the seeding
    insert is refused as a whole, nobody looks at the refusal, and the
    catalog stays empty.  Running [init] a second time changes nothing. *)
Theorem init_seeds_only_an_empty_catalog INITIAL_PRODUCTS s :
  let out := DBService.init INITIAL_PRODUCTS s in
  out.2 = Ok tt
  ∧ clients out.1 = clients s
  ∧ sales out.1 = sales s
  ∧ suspended_sales out.1 = suspended_sales s
  ∧ (products s ≠ ∅ → out.1 = s)
  ∧ (products s = ∅ → NoDup (Product.id <$> INITIAL_PRODUCTS) →
     ∀ k p, products out.1 !! k = Some p ↔ p ∈ INITIAL_PRODUCTS ∧ Product.id p = k)
  ∧ (products s = ∅ → ¬ NoDup (Product.id <$> INITIAL_PRODUCTS) → out.1 = s)
  ∧ DBService.init INITIAL_PRODUCTS out.1 = (out.1, Ok tt).
Proof.
  intros out; subst out.
  unfold DBService.init, supabase.select_limit_1, supabase.insert_many, bind, gets, ret.
  simpl.
  destruct (firstn 1 (map_to_list (products s)).*2) as [|row rest] eqn:Hdata.
  - apply select_limit_1_empty in Hdata.
    destruct (decide (NoDup (Product.id <$> INITIAL_PRODUCTS))) as [Hnd|Hnd].
    + assert (Hfree : ∀ r, r ∈ INITIAL_PRODUCTS → products s !! Product.id r = None).
      { intros r _. rewrite Hdata. apply lookup_empty. }
      assert (Hall : forallb (λ row, match products s !! Product.id row with
                                     | None => true
                                     | Some _ => false
                                     end) INITIAL_PRODUCTS = true).
      { apply forallb_forall. intros r Hr. rewrite Hfree; [reflexivity|].
        apply list_elem_of_In. assumption. }
      rewrite Hall. simpl.
      assert (Hlook : ∀ k p,
                foldl (λ m row, <[Product.id row := row]> m) (products s)
                  INITIAL_PRODUCTS !! k = Some p
                ↔ p ∈ INITIAL_PRODUCTS ∧ Product.id p = k).
      { intros k p. rewrite lookup_foldl_insert by assumption.
        rewrite Hdata, lookup_empty. split; [intros [?|?]; [discriminate|assumption]|auto]. }
      split_and!; try reflexivity.
      * intros Hne. contradiction.
      * intros _ _. exact Hlook.
      * intros _ Hdup. contradiction.
      * destruct INITIAL_PRODUCTS as [|p0 rows] eqn:Hrows.
        -- simpl. replace (with_products (λ m, m) s) with s by (destruct s; reflexivity).
           rewrite Hdata, map_to_list_empty. simpl.
           replace (with_products (λ m, m) s) with s by (destruct s; reflexivity).
           reflexivity.
        -- rewrite <- Hrows in *.
           match goal with
           | |- context [firstn 1 (map_to_list ?m).*2] =>
               destruct (firstn 1 (map_to_list m).*2) as [|row rest] eqn:Hdata2
           end; [|reflexivity].
           apply select_limit_1_empty in Hdata2.
           assert (Hp0 : (∅ : gmap string Product.t) !! Product.id p0 = Some p0).
           { rewrite <- Hdata2. apply Hlook. split; [|reflexivity].
             rewrite Hrows. apply list_elem_of_here. }
           rewrite lookup_empty in Hp0. discriminate.
    + simpl. split_and!; try (intros; reflexivity).
      * intros _ Hnd'. contradiction.
      * rewrite (proj2 (select_limit_1_empty _) Hdata).
        destruct (decide (NoDup (Product.id <$> INITIAL_PRODUCTS))); [contradiction|].
        reflexivity.
  - simpl. split_and!; try (intros; reflexivity).
    + intros He. rewrite (proj2 (select_limit_1_empty _) He) in Hdata. discriminate.
    + rewrite Hdata. reflexivity.
Qed.

(** ** The cart *)

Lemma find_in_cart_None id (cart : list CartItem.t) :
  List.find (λ item, bool_decide (Product.id (CartItem.product item) = id)) cart = None
  ↔ id ∉ cart_ids cart.
Proof.
  induction cart as [|item rest IH]; simpl.
  - split; [intros _ Hin; inversion Hin | reflexivity].
  - unfold cart_ids in *. simpl. rewrite not_elem_of_cons.
    case_bool_decide as Hid; split.
    + discriminate.
    + intros [Hne _]. congruence.
    + intros Hrest. split; [congruence | apply IH; assumption].
    + intros [_ Hrest]. apply IH; assumption.
Qed.

Lemma find_in_cart_Some id (cart : list CartItem.t) line :
  List.find (λ item, bool_decide (Product.id (CartItem.product item) = id)) cart = Some line →
  line ∈ cart ∧ Product.id (CartItem.product line) = id.
Proof.
  induction cart as [|item rest IH]; simpl; [discriminate|].
  case_bool_decide as Hid.
  - intros [= <-]. split; [apply list_elem_of_here | assumption].
  - intros Hfind. destruct (IH Hfind) as [Hin Hline].
    split; [apply list_elem_of_further; assumption | assumption].
Qed.

Lemma cart_ids_bump id (cart : list CartItem.t) (f : CartItem.t → Z) :
  cart_ids ((λ item,
               if decide (Product.id (CartItem.product item) = id)
               then {| CartItem.product := CartItem.product item;
                       CartItem.quantity := f item |}
               else item) <$> cart) = cart_ids cart.
Proof.
  unfold cart_ids. rewrite <- list_fmap_compose. apply list_fmap_ext.
  intros i item _. simpl. case_decide; reflexivity.
Qed.

Lemma addToCart_well_formed product cart :
  cart_well_formed cart → cart_well_formed (SellerView.addToCart product cart).
Proof.
  intros [Hnd Hpos]. unfold SellerView.addToCart.
  destruct (List.find _ cart) as [line|] eqn:Hfind.
  - split.
    + rewrite cart_ids_bump. assumption.
    + apply Forall_fmap. eapply Forall_impl; [exact Hpos|].
      intros item Hitem. simpl in Hitem. unfold compose. case_decide; simpl; lia.
  - apply find_in_cart_None in Hfind. split.
    + unfold cart_ids in *. rewrite fmap_app. simpl.
      apply NoDup_app. split_and!; [assumption | | apply NoDup_singleton].
      intros x Hx Hx'. apply list_elem_of_singleton in Hx'. subst x. contradiction.
    + apply Forall_app. split; [assumption|]. repeat constructor.
Qed.

Lemma updateCartQty_well_formed id delta cart :
  NoDup (cart_ids cart) → cart_well_formed (SellerView.updateCartQty id delta cart).
Proof.
  intros Hnd. unfold SellerView.updateCartQty. split.
  - pose proof (cart_ids_bump id cart
                  (λ item, Z.max 0 (CartItem.quantity item + delta))) as Hids.
    unfold cart_ids in *. eapply sublist_NoDup.
    + rewrite <- Hids in Hnd. exact Hnd.
    + apply fmap_sublist. apply sublist_filter.
  - apply Forall_forall. intros item Hin. apply list_elem_of_filter in Hin as [Hq _].
    exact Hq.
Qed.

Lemma cart_actions_well_formed (actions : list cart_action) cart0 :
  cart_well_formed cart0 → cart_well_formed (foldl apply_cart_action cart0 actions).
Proof.
  revert cart0; induction actions as [|a actions IH]; intros cart0 H0; simpl.
  - assumption.
  - apply IH. destruct a as [product|id delta]; simpl.
    + apply addToCart_well_formed. assumption.
    + apply updateCartQty_well_formed. apply H0.
Qed.

(** Whatever the seller does with the product grid and the plus and minus
    buttons, starting from an empty cart, the cart has one line per product
    and every line has a quantity of at least 1; so the items a checkout
    builds from it have positive quantities and name each product once. *)
Theorem cart_stays_well_formed (actions : list cart_action) :
  let cart := foldl apply_cart_action [] actions in
  cart_well_formed cart
  ∧ Forall (λ item, 0 < SaleItem.quantity item) (SellerView.saleItems_of cart)
  ∧ NoDup (SaleItem.productId <$> SellerView.saleItems_of cart).
Proof.
  intros cart.
  assert (Hwf : cart_well_formed cart).
  { apply cart_actions_well_formed. split; constructor. }
  split; [assumption|]. destruct Hwf as [Hnd Hpos]. split.
  - unfold SellerView.saleItems_of. apply Forall_fmap.
    eapply Forall_impl; [exact Hpos|]. intros item Hitem. exact Hitem.
  - unfold SellerView.saleItems_of. rewrite <- list_fmap_compose. exact Hnd.
Qed.

Lemma cartItemCount_sum cart :
  SellerView.cartItemCount cart = sum_with CartItem.quantity cart.
Proof. unfold SellerView.cartItemCount. rewrite foldl_sum_with. lia. Qed.

Lemma cartTotal_sum cart :
  SellerView.cartTotal cart
  = sum_with (λ item, Product.priceRetail (CartItem.product item) * CartItem.quantity item)
      cart.
Proof. unfold SellerView.cartTotal. rewrite foldl_sum_with. lia. Qed.

Lemma quantity_in_cart_app id l1 l2 :
  quantity_in_cart id (l1 ++ l2)%list = quantity_in_cart id l1 + quantity_in_cart id l2.
Proof. induction l1 as [|x l1 IH]; simpl; [reflexivity | rewrite IH; lia]. Qed.

Lemma quantity_in_cart_absent id cart :
  id ∉ cart_ids cart → quantity_in_cart id cart = 0.
Proof.
  induction cart as [|x cart IH]; simpl; [reflexivity|].
  unfold cart_ids in *. simpl. rewrite not_elem_of_cons. intros [Hne Hrest].
  rewrite decide_False by congruence. rewrite IH by assumption. reflexivity.
Qed.

Lemma bump_absent id (f : CartItem.t → Z) cart :
  id ∉ cart_ids cart →
  (λ item, if decide (Product.id (CartItem.product item) = id)
           then {| CartItem.product := CartItem.product item; CartItem.quantity := f item |}
           else item) <$> cart = cart.
Proof.
  induction cart as [|x cart IH]; [reflexivity|].
  unfold cart_ids in *. rewrite !fmap_cons, not_elem_of_cons. intros [Hne Hrest].
  rewrite decide_False by congruence. rewrite IH by assumption. reflexivity.
Qed.

(** A cart with one line per product, cut at the line of a product. *)
Lemma cart_split id cart line :
  NoDup (cart_ids cart) →
  line ∈ cart →
  Product.id (CartItem.product line) = id →
  ∃ l1 l2, cart = (l1 ++ line :: l2)%list ∧ (id ∉ cart_ids l1) ∧ (id ∉ cart_ids l2).
Proof.
  intros Hnd Hin Hid. apply list_elem_of_split in Hin as (l1 & l2 & ->).
  exists l1, l2. split; [reflexivity|].
  unfold cart_ids in *. rewrite fmap_app, fmap_cons in Hnd.
  apply NoDup_app in Hnd as (_ & Hdisj & Hnd2).
  apply NoDup_cons in Hnd2 as [Hl2 _]. rewrite Hid in *. split; [|assumption].
  intros Hl1. apply (Hdisj id Hl1). apply list_elem_of_here.
Qed.

Lemma bump_split id (f : CartItem.t → Z) l1 l2 line :
  Product.id (CartItem.product line) = id →
  id ∉ cart_ids l1 → id ∉ cart_ids l2 →
  (λ item, if decide (Product.id (CartItem.product item) = id)
           then {| CartItem.product := CartItem.product item; CartItem.quantity := f item |}
           else item) <$> (l1 ++ line :: l2)%list
  = (l1 ++ {| CartItem.product := CartItem.product line; CartItem.quantity := f line |}
        :: l2)%list.
Proof.
  intros Hid H1 H2. rewrite fmap_app, fmap_cons.
  rewrite !bump_absent by assumption. rewrite decide_True by assumption. reflexivity.
Qed.

(** Adding a product to a cart that has one line per product adds exactly
    one unit of it: the quantity of that product goes up by 1, of every
    other product stays, and the item count goes up by 1.  A product that is
    new to the cart gets a line of quantity 1 at the end of the cart, and the
    cart total is the old total plus its retail price.  A product that has a
    line keeps that line in its place, with the product as recorded on the
    line and one unit more; every other line is as it was. *)
Theorem addToCart_adds_one_unit product cart :
  NoDup (cart_ids cart) →
  (∀ id, quantity_in_cart id (SellerView.addToCart product cart)
         = quantity_in_cart id cart + (if decide (id = Product.id product) then 1 else 0))
  ∧ SellerView.cartItemCount (SellerView.addToCart product cart)
    = SellerView.cartItemCount cart + 1
  ∧ (Product.id product ∉ cart_ids cart →
     SellerView.addToCart product cart
     = (cart ++ [ {| CartItem.product := product; CartItem.quantity := 1 |} ])%list
     ∧ SellerView.cartTotal (SellerView.addToCart product cart)
       = SellerView.cartTotal cart + Product.priceRetail product * 1)
  ∧ (∀ line, line ∈ cart →
       Product.id (CartItem.product line) = Product.id product →
       ∃ l1 l2,
         cart = (l1 ++ line :: l2)%list
         ∧ SellerView.addToCart product cart
           = (l1 ++ {| CartItem.product := CartItem.product line;
                       CartItem.quantity := CartItem.quantity line + 1 |} :: l2)%list).
Proof.
  intros Hnd. unfold SellerView.addToCart.
  destruct (List.find _ cart) as [line|] eqn:Hfind.
  - apply find_in_cart_Some in Hfind as [Hin Hid].
    destruct (cart_split _ _ _ Hnd Hin Hid) as (l1 & l2 & -> & H1 & H2).
    rewrite (bump_split _ (λ item, CartItem.quantity item + 1)) by assumption.
    split_and!.
    + intros id. rewrite !quantity_in_cart_app. simpl. rewrite Hid.
      repeat case_decide; try congruence; lia.
    + rewrite !cartItemCount_sum, !sum_with_app. simpl. lia.
    + intros Hnew. exfalso. apply Hnew. unfold cart_ids. rewrite fmap_app, fmap_cons.
      rewrite Hid. apply elem_of_app. right. apply list_elem_of_here.
    + intros line' Hin' Hid'.
      assert (line' = line) as ->.
      { apply elem_of_app in Hin' as [Hin'|Hin'].
        - exfalso. apply H1. rewrite <- Hid'. apply list_elem_of_fmap.
          exists line'. split; [reflexivity | assumption].
        - apply elem_of_cons in Hin' as [->|Hin']; [reflexivity|].
          exfalso. apply H2. rewrite <- Hid'. apply list_elem_of_fmap.
          exists line'. split; [reflexivity | assumption]. }
      exists l1, l2. split; reflexivity.
  - apply find_in_cart_None in Hfind. split_and!.
    + intros id. rewrite quantity_in_cart_app. simpl.
      repeat case_decide; try congruence; lia.
    + rewrite !cartItemCount_sum, sum_with_app. simpl. lia.
    + intros _. split; [reflexivity|].
      unfold SellerView.cartTotal. rewrite foldl_app. reflexivity.
    + intros line Hin Hid. exfalso. apply Hfind. rewrite <- Hid.
      apply list_elem_of_fmap. exists line. split; [reflexivity | assumption].
Qed.

Lemma addToCart_adds_one_unit_witness :
  quantity_in_cart "P" (SellerView.addToCart Fixtures.P Fixtures.cart_A) = 4
  ∧ quantity_in_cart "Q" (SellerView.addToCart Fixtures.P Fixtures.cart_A) = 2
  ∧ SellerView.cartItemCount (SellerView.addToCart Fixtures.G Fixtures.cart_A) = 6
  ∧ SellerView.addToCart Fixtures.G Fixtures.cart_A
    = (Fixtures.cart_A
         ++ [ {| CartItem.product := Fixtures.G; CartItem.quantity := 1 |} ])%list.
Proof.
  assert (Hnd : NoDup (cart_ids Fixtures.cart_A)).
  { apply (bool_decide_unpack _). vm_compute. exact I. }
  destruct (addToCart_adds_one_unit Fixtures.P Fixtures.cart_A Hnd) as (Hq & _).
  destruct (addToCart_adds_one_unit Fixtures.G Fixtures.cart_A Hnd) as (_ & Hc & Hnew & _).
  split_and!.
  - rewrite Hq. reflexivity.
  - rewrite Hq. reflexivity.
  - rewrite Hc. reflexivity.
  - apply Hnew. apply (bool_decide_unpack _). vm_compute. exact I.
Defined.

Lemma filter_positive_all (cart : list CartItem.t) :
  Forall (λ item, 0 < CartItem.quantity item) cart →
  filter (λ item, 0 < CartItem.quantity item) cart = cart.
Proof.
  induction 1 as [|x l Hx Hl IH]; [reflexivity|].
  rewrite filter_cons_True by assumption. rewrite IH. reflexivity.
Qed.

(** Changing the quantity of a product in a well-formed cart touches only
    the line of that product: a product the cart does not hold leaves the
    cart as it is; otherwise the line's quantity becomes quantity + delta
    when that is positive and the line is removed when it is not; the
    quantity of every other product is as before. *)
Theorem updateCartQty_changes_one_line id delta cart :
  cart_well_formed cart →
  (id ∉ cart_ids cart → SellerView.updateCartQty id delta cart = cart)
  ∧ (id ∈ cart_ids cart →
     quantity_in_cart id (SellerView.updateCartQty id delta cart)
     = Z.max 0 (quantity_in_cart id cart + delta))
  ∧ (id ∈ cart_ids (SellerView.updateCartQty id delta cart)
     ↔ id ∈ cart_ids cart ∧ 0 < quantity_in_cart id cart + delta)
  ∧ (∀ id', id' ≠ id →
       quantity_in_cart id' (SellerView.updateCartQty id delta cart)
       = quantity_in_cart id' cart).
Proof.
  intros [Hnd Hpos]. unfold SellerView.updateCartQty.
  destruct (decide (id ∈ cart_ids cart)) as [Hin|Hnotin].
  - unfold cart_ids in Hin. apply list_elem_of_fmap in Hin as (line & Hid & Hin).
    symmetry in Hid.
    destruct (cart_split _ _ _ Hnd Hin Hid) as (l1 & l2 & -> & H1 & H2).
    rewrite (bump_split _ (λ item, Z.max 0 (CartItem.quantity item + delta)))
      by assumption.
    apply Forall_app in Hpos as [Hpos1 Hpos2].
    apply Forall_cons in Hpos2 as [Hline Hpos2].
    rewrite filter_app, filter_cons. rewrite !filter_positive_all by assumption.
    assert (Hq : quantity_in_cart id (l1 ++ line :: l2) = CartItem.quantity line).
    { rewrite quantity_in_cart_app. simpl. rewrite decide_True by assumption.
      rewrite !quantity_in_cart_absent by assumption. lia. }
    rewrite Hq. simpl.
    assert (Hids : id ∈ cart_ids (l1 ++ line :: l2)).
    { unfold cart_ids. rewrite fmap_app, fmap_cons, Hid.
      apply elem_of_app. right. apply list_elem_of_here. }
    case_decide as Hnew.
    + split_and!.
      * intros Hno. contradiction.
      * intros _. rewrite quantity_in_cart_app. simpl. rewrite decide_True by assumption.
        rewrite !quantity_in_cart_absent by assumption. lia.
      * split; [intros _; split; [assumption | lia]|]. intros _.
        unfold cart_ids. rewrite fmap_app, fmap_cons. simpl. rewrite Hid.
        apply elem_of_app. right. apply list_elem_of_here.
      * intros id' Hne. rewrite !quantity_in_cart_app. simpl.
        rewrite !decide_False by congruence. reflexivity.
    + split_and!.
      * intros Hno. contradiction.
      * intros _. rewrite quantity_in_cart_app.
        rewrite !quantity_in_cart_absent by assumption. lia.
      * split; [|intros [_ Hgt]; lia]. intros Hin'. exfalso.
        unfold cart_ids in *. rewrite fmap_app in Hin'.
        apply elem_of_app in Hin' as [?|?]; contradiction.
      * intros id' Hne. rewrite !quantity_in_cart_app. simpl.
        rewrite !decide_False by congruence. lia.
  - rewrite bump_absent by assumption. rewrite filter_positive_all by assumption.
    split_and!.
    + reflexivity.
    + intros Hin. contradiction.
    + split; [intros Hin; contradiction | intros [Hin _]; contradiction].
    + reflexivity.
Qed.

Lemma updateCartQty_changes_one_line_witness :
  quantity_in_cart "P" (SellerView.updateCartQty "P" (-1) Fixtures.cart_A) = 2
  ∧ SellerView.updateCartQty "G" 5 Fixtures.cart_A = Fixtures.cart_A
  ∧ quantity_in_cart "P" (SellerView.updateCartQty "Q" (-2) Fixtures.cart_A) = 3.
Proof.
  assert (Hwf : cart_well_formed Fixtures.cart_A).
  { split.
    - apply (bool_decide_unpack _). vm_compute. exact I.
    - repeat constructor. }
  split_and!.
  - destruct (updateCartQty_changes_one_line "P" (-1) Fixtures.cart_A Hwf)
      as (_ & Hq & _).
    rewrite Hq; [reflexivity|]. apply (bool_decide_unpack _). vm_compute. exact I.
  - destruct (updateCartQty_changes_one_line "G" 5 Fixtures.cart_A Hwf) as (Hno & _).
    apply Hno. apply (bool_decide_unpack _). vm_compute. exact I.
  - destruct (updateCartQty_changes_one_line "Q" (-2) Fixtures.cart_A Hwf)
      as (_ & _ & _ & Hother).
    rewrite Hother by discriminate. reflexivity.
Defined.

(** ** Checkout *)

Lemma quantity_of_saleItems pid cart :
  quantity_of pid (SellerView.saleItems_of cart) = quantity_in_cart pid cart.
Proof.
  induction cart as [|item rest IH]; [reflexivity|].
  unfold SellerView.saleItems_of in *. rewrite fmap_cons. simpl. rewrite IH. reflexivity.
Qed.

Lemma totalAmount_of_saleItems cart :
  DBService.totalAmount_of (SellerView.saleItems_of cart) = SellerView.cartTotal cart.
Proof.
  rewrite totalAmount_of_sum, cartTotal_sum.
  induction cart as [|item rest IH]; [reflexivity|].
  unfold SellerView.saleItems_of in *. rewrite fmap_cons. simpl. rewrite IH. reflexivity.
Qed.

(** A checkout under an id the ledger does not hold yet records one retail
    sale of the seller, worth the cart total, takes from every product's
    stock the quantity the cart holds of it, empties the cart, closes the
    payment dialog and shows the refreshed catalog.  When the ledger refuses
    the sale the handler throws, and cart, dialog and store are as before. *)
Theorem handleCheckout_sells_the_cart uuid now userId v s :
  (sales s !! uuid = None →
   ∃ v' s' sale,
     SellerView.handleCheckout uuid now userId (v, s) = ((v', s'), Ok tt)
     ∧ sales s' = <[uuid := sale]> (sales s)
     ∧ Sale.type sale = pos
     ∧ Sale.sellerId sale = userId
     ∧ Sale.totalAmount sale = SellerView.cartTotal (SellerView.cart v)
     ∧ (∀ pid, products s' !! pid
               = take (quantity_in_cart pid (SellerView.cart v)) <$> products s !! pid)
     ∧ clients s' = clients s
     ∧ SellerView.cart v' = []
     ∧ SellerView.showPaymentModal v' = false
     ∧ SellerView.products v' = (map_to_list (products s')).*2)
  ∧ (is_Some (sales s !! uuid) →
     ∃ e, SellerView.handleCheckout uuid now userId (v, s) = ((v, s), Throw e)).
Proof.
  split.
  - intros Hfresh.
    eexists _, _, (retail_sale uuid now (SellerView.saleItems_of (SellerView.cart v)) userId).
    split.
    { unfold SellerView.handleCheckout, bind, get_state, gets, db; simpl.
      rewrite createRetailSale_run by assumption. reflexivity. }
    simpl. split_and!; try reflexivity.
    + apply totalAmount_of_saleItems.
    + intros pid. rewrite lookup_take_all, quantity_of_saleItems. reflexivity.
  - intros Htaken. eexists.
    unfold SellerView.handleCheckout, bind, get_state, gets, db; simpl.
    rewrite createRetailSale_taken by assumption. destruct v; reflexivity.
Qed.

Lemma handleCheckout_sells_the_cart_witness :
  ∃ v' s',
    SellerView.handleCheckout Fixtures.uuid1 Fixtures.t1 "seller-1"
      (Fixtures.counter, Fixtures.shop) = ((v', s'), Ok tt)
    ∧ Sale.totalAmount <$> sales s' !! Fixtures.uuid1 = Some 15
    ∧ Product.stock <$> products s' !! "P" = Some 7
    ∧ Product.stock <$> products s' !! "Q" = Some 6
    ∧ SellerView.cart v' = [].
Proof.
  destruct (proj1 (handleCheckout_sells_the_cart Fixtures.uuid1 Fixtures.t1 "seller-1"
                     Fixtures.counter Fixtures.shop))
    as (v' & s' & sale & Hrun & Hsales & _ & _ & Htotal & Hstock & _ & Hcart & _);
    [reflexivity|].
  exists v', s'. rewrite Hsales, lookup_insert_eq, !Hstock. simpl. rewrite Htotal.
  split_and!; assumption || reflexivity.
Defined.

(** ** Parking a cart: the cases in which nothing is filed *)

(** Parking does nothing at all when the cart is empty, when the seller
    cancels the prompt and when the reference name is left empty.  When the
    id drawn from the clock is the id of a cart already held, the insert is
    refused and nobody looks at the refusal: the handler returns normally,
    the store is as before, and the cart is emptied all the same, so the
    cart that was to be parked is in neither place. *)
Theorem handleSuspendSale_files_nothing answer ms now v s :
  (SellerView.cart v = [] →
   SellerView.handleSuspendSale answer ms now (v, s) = ((v, s), Ok tt))
  ∧ (answer = None ∨ answer = Some "" →
     SellerView.handleSuspendSale answer ms now (v, s) = ((v, s), Ok tt))
  ∧ (∀ refName,
       answer = Some refName → refName ≠ "" → SellerView.cart v ≠ [] →
       is_Some (suspended_sales s !! ms) →
       ∃ v',
         SellerView.handleSuspendSale answer ms now (v, s) = ((v', s), Ok tt)
         ∧ SellerView.cart v' = []
         ∧ ∀ held, held ∈ SellerView.suspendedSales v' →
                   ∃ k, suspended_sales s !! k = Some held).
Proof.
  unfold SellerView.handleSuspendSale, bind, get_state, gets, ret; simpl.
  split_and!.
  - intros ->. destruct v; reflexivity.
  - intros [-> | ->]; destruct (SellerView.cart v); try (destruct v; reflexivity).
  - intros refName -> Hname Hcart [other Hother].
    destruct (SellerView.cart v) as [|item rest] eqn:Hc; [congruence|].
    rewrite decide_False by assumption.
    unfold db, DBService.addSuspendedSale, supabase.insert, bind; simpl.
    rewrite Hother. simpl.
    eexists. split; [destruct s; reflexivity|]. simpl. split; [reflexivity|].
    intros held Hheld. apply list_elem_of_fmap in Hheld as ([k x] & -> & Hin).
    exists k. apply elem_of_map_to_list in Hin. exact Hin.
Qed.

Lemma handleSuspendSale_files_nothing_witness :
  SellerView.handleSuspendSale None "1714557600000" Fixtures.t1
    (Fixtures.counter, Fixtures.shop) = ((Fixtures.counter, Fixtures.shop), Ok tt)
  ∧ ∃ v',
      SellerView.handleSuspendSale (Some "Walk-in B") "1714557600000" Fixtures.t2
        (Fixtures.counter,
         with_suspended_sales (insert "1714557600000" Fixtures.held_A) Fixtures.shop)
      = ((v', with_suspended_sales (insert "1714557600000" Fixtures.held_A) Fixtures.shop),
         Ok tt)
      ∧ SellerView.cart v' = [].
Proof.
  split.
  - apply (proj1 (proj2 (handleSuspendSale_files_nothing None "1714557600000" Fixtures.t1
                           Fixtures.counter Fixtures.shop))).
    left. reflexivity.
  - destruct (proj2 (proj2 (handleSuspendSale_files_nothing (Some "Walk-in B")
                              "1714557600000" Fixtures.t2 Fixtures.counter
                              (with_suspended_sales
                                 (insert "1714557600000" Fixtures.held_A) Fixtures.shop)))
                "Walk-in B") as (v' & Hrun & Hcart & _).
    + reflexivity.
    + discriminate.
    + discriminate.
    + exists Fixtures.held_A. reflexivity.
    + exists v'. split; assumption.
Defined.

(** ** Dispatch from the seller's view *)

(** [handleDispatchConfirm] never throws.  When the client is not on file or
    the ledger refuses the sale, the error is caught and view and store are
    exactly as before.  Otherwise the store is the one the dispatch sale
    leaves and the view shows the refreshed clients, with the cart as it
    was. *)
Theorem handleDispatchConfirm_never_throws uuid now userId clientId items v s :
  (SellerView.handleDispatchConfirm uuid now userId clientId items (v, s)).2 = Ok tt
  ∧ (clients s !! clientId = None ∨ is_Some (sales s !! uuid) →
     SellerView.handleDispatchConfirm uuid now userId clientId items (v, s)
     = ((v, s), Ok tt))
  ∧ (is_Some (clients s !! clientId) → sales s !! uuid = None →
     ∃ v' s',
       DBService.createDispatchSale uuid now clientId items userId s = (s', Ok tt)
       ∧ SellerView.handleDispatchConfirm uuid now userId clientId items (v, s)
         = ((v', s'), Ok tt)
       ∧ SellerView.clients v' = (map_to_list (clients s')).*2
       ∧ SellerView.cart v' = SellerView.cart v).
Proof.
  unfold SellerView.handleDispatchConfirm, try_catch, bind, db, ret. simpl.
  destruct (clients s !! clientId) as [client|] eqn:Hclient.
  - destruct (sales s !! uuid) as [old|] eqn:Hsale.
    + rewrite (createDispatchSale_taken _ _ _ _ _ _ client) by (rewrite ?Hsale; eauto).
      simpl. split_and!.
      * reflexivity.
      * intros _. destruct v; reflexivity.
      * intros _ [=].
    + rewrite (createDispatchSale_run _ _ _ _ _ _ client) by assumption. simpl.
      split_and!.
      * reflexivity.
      * intros [[=]|[? [=]]].
      * intros _ _. eexists _, _. split_and!; reflexivity.
  - rewrite createDispatchSale_no_client by assumption. simpl. split_and!.
    + reflexivity.
    + intros _. destruct v; reflexivity.
    + intros [? [=]].
Qed.

Lemma handleDispatchConfirm_never_throws_witness :
  SellerView.handleDispatchConfirm Fixtures.uuid1 Fixtures.t1 "seller-1" "nobody"
    [Fixtures.two_Q] (Fixtures.counter, Fixtures.shop)
  = ((Fixtures.counter, Fixtures.shop), Ok tt)
  ∧ ∃ v' s',
      SellerView.handleDispatchConfirm Fixtures.uuid1 Fixtures.t1 "seller-1" "C"
        [Fixtures.two_Q] (Fixtures.counter, Fixtures.shop) = ((v', s'), Ok tt)
      ∧ Client.debt <$> clients s' !! "C" = Some 30.
Proof.
  split.
  - apply (proj1 (proj2 (handleDispatchConfirm_never_throws Fixtures.uuid1 Fixtures.t1
                           "seller-1" "nobody" [Fixtures.two_Q] Fixtures.counter
                           Fixtures.shop))).
    left. reflexivity.
  - destruct (proj2 (proj2 (handleDispatchConfirm_never_throws Fixtures.uuid1 Fixtures.t1
                              "seller-1" "C" [Fixtures.two_Q] Fixtures.counter
                              Fixtures.shop)))
      as (v' & s' & Hd & Hrun & _).
    + exists Fixtures.C. reflexivity.
    + reflexivity.
    + exists v', s'. split; [assumption|].
      injection Hd as <-. reflexivity.
Defined.

(** ** The dispatch card *)

Lemma find_product_Some products prodId prod :
  DispatchClientCard.find_product products prodId = Some prod →
  prod ∈ products ∧ Product.id prod = prodId.
Proof.
  unfold DispatchClientCard.find_product. intros Hfind.
  apply find_some in Hfind as [Hin Hid].
  split; [apply list_elem_of_In; assumption|].
  apply bool_decide_eq_true in Hid. assumption.
Qed.

Lemma sum_subtotal_app (l1 l2 : list SaleItem.t) :
  sum_subtotal (l1 ++ l2) = sum_subtotal l1 + sum_subtotal l2.
Proof. induction l1 as [|x l1 IH]; simpl; [reflexivity | rewrite IH; lia]. Qed.

Section dispatch_card.
Variable Object_entries : gmap string Z → list (string * Z).
Hypothesis Object_entries_lists : ∀ q, Object_entries q ≡ₚ map_to_list q.

Lemma proposed_fold products (l : list (string * Z)) (acc : list SaleItem.t) :
  foldl (λ items entry,
           if decide (0 < entry.2) then
             match DispatchClientCard.find_product products entry.1 with
             | Some prod =>
                 (items ++ [ {| SaleItem.productId := Product.id prod;
                                SaleItem.productName := Product.name prod;
                                SaleItem.quantity := entry.2;
                                SaleItem.unitPrice := Product.priceWholesale prod;
                                SaleItem.subtotal :=
                                  Product.priceWholesale prod * entry.2 |} ])%list
             | None => items
             end
           else items) acc l
  = (acc ++ (l ≫= proposed_line products))%list.
Proof.
  revert acc; induction l as [|entry l IH]; intros acc; simpl.
  - rewrite app_nil_r. reflexivity.
  - rewrite IH. unfold proposed_line at 2.
    destruct (decide (0 < entry.2)); [|reflexivity].
    destruct (DispatchClientCard.find_product products entry.1); [|reflexivity].
    rewrite <- app_assoc. reflexivity.
Qed.

Lemma total_fold products (l : list (string * Z)) (acc : Z) :
  foldl (λ total entry,
           if decide (0 < entry.2) then
             match DispatchClientCard.find_product products entry.1 with
             | Some prod => total + Product.priceWholesale prod * entry.2
             | None => total
             end
           else total) acc l
  = acc + sum_subtotal (l ≫= proposed_line products).
Proof.
  revert acc; induction l as [|entry l IH]; intros acc.
  - simpl. lia.
  - cbn [foldl]. rewrite IH, bind_cons, sum_subtotal_app. unfold proposed_line at 2.
    destruct (decide (0 < entry.2)); [|simpl; lia].
    destruct (DispatchClientCard.find_product products entry.1); simpl; lia.
Qed.

Lemma getProposedItems_lines products quantities :
  DispatchClientCard.getProposedItems Object_entries products quantities
  = Object_entries quantities ≫= proposed_line products.
Proof. unfold DispatchClientCard.getProposedItems. apply proposed_fold. Qed.

Lemma calculateTotal_lines products quantities :
  DispatchClientCard.calculateTotal Object_entries products quantities
  = sum_subtotal (Object_entries quantities ≫= proposed_line products).
Proof. unfold DispatchClientCard.calculateTotal. rewrite total_fold. lia. Qed.

Lemma proposed_line_productIds products (l : list (string * Z)) :
  SaleItem.productId <$> (l ≫= proposed_line products) `sublist_of` l.*1.
Proof.
  induction l as [|entry l IH]; [constructor|].
  rewrite bind_cons, fmap_app, fmap_cons.
  destruct (proposed_line products entry) as [|item rest] eqn:Hline.
  - apply sublist_cons. exact IH.
  - unfold proposed_line in Hline.
    destruct (decide (0 < entry.2)); [|discriminate].
    destruct (DispatchClientCard.find_product products entry.1) as [prod|] eqn:Hfind;
      [|discriminate].
    injection Hline as <- <-.
    apply find_product_Some in Hfind as [_ Hid]. simpl. rewrite Hid.
    apply sublist_skip. exact IH.
Qed.

(** The items a dispatch card proposes, whatever the order in which the
    engine lists the keyed quantities: every item has a positive quantity,
    the one keyed for its product; its product is in the list the card
    shows, its unit price is that product's wholesale price and its subtotal
    is price times quantity; no product is proposed twice; every product of
    the list with a positive keyed quantity is proposed; the total the card
    shows is the total the sale will have; and the confirmation dialog opens
    exactly when there is something to propose. *)
Theorem getProposedItems_are_valid products quantities :
  let items := DispatchClientCard.getProposedItems Object_entries products quantities in
  Forall (λ item,
            0 < SaleItem.quantity item
            ∧ quantities !! SaleItem.productId item = Some (SaleItem.quantity item)
            ∧ SaleItem.subtotal item = SaleItem.unitPrice item * SaleItem.quantity item
            ∧ ∃ prod, prod ∈ products
                      ∧ Product.id prod = SaleItem.productId item
                      ∧ Product.name prod = SaleItem.productName item
                      ∧ Product.priceWholesale prod = SaleItem.unitPrice item) items
  ∧ NoDup (SaleItem.productId <$> items)
  ∧ (∀ k q prod,
       quantities !! k = Some q → 0 < q →
       DispatchClientCard.find_product products k = Some prod →
       ∃ item, item ∈ items ∧ SaleItem.productId item = k ∧ SaleItem.quantity item = q)
  ∧ DBService.totalAmount_of items
    = DispatchClientCard.calculateTotal Object_entries products quantities
  ∧ (DispatchClientCard.handleInitialClick Object_entries products quantities false = true
     ↔ items ≠ []).
Proof.
  intros items. subst items.
  unfold DispatchClientCard.handleInitialClick.
  rewrite getProposedItems_lines, calculateTotal_lines, totalAmount_of_sum.
  assert (Hentry : ∀ k q, (k, q) ∈ Object_entries quantities ↔ quantities !! k = Some q).
  { intros k q. rewrite Object_entries_lists. apply elem_of_map_to_list. }
  split_and!.
  - apply Forall_forall. intros item Hitem.
    apply list_elem_of_bind in Hitem as ([k q] & Hline & Hin).
    apply Hentry in Hin. unfold proposed_line in Hline. simpl in Hline.
    destruct (decide (0 < q)) as [Hq|]; [|inversion Hline].
    destruct (DispatchClientCard.find_product products k) as [prod|] eqn:Hfind;
      [|inversion Hline].
    apply list_elem_of_singleton in Hline as ->. simpl.
    apply find_product_Some in Hfind as [Hprod Hid].
    split_and!; try assumption; try reflexivity.
    + rewrite Hid. assumption.
    + exists prod. split_and!; assumption || reflexivity.
  - eapply sublist_NoDup; [|apply proposed_line_productIds].
    rewrite Object_entries_lists. apply NoDup_fst_map_to_list.
  - intros k q prod Hk Hq Hfind. apply Hentry in Hk.
    eexists. split.
    + apply list_elem_of_bind. exists (k, q). split; [|exact Hk].
      unfold proposed_line. simpl. rewrite decide_True by assumption. rewrite Hfind.
      apply list_elem_of_here.
    + simpl. apply find_product_Some in Hfind as [_ Hid]. split; [assumption|reflexivity].
  - reflexivity.
  - destruct (Object_entries quantities ≫= proposed_line products); split; try discriminate;
      try reflexivity; intros H; congruence.
Qed.

End dispatch_card.

Lemma getProposedItems_are_valid_witness :
  DispatchClientCard.getProposedItems map_to_list [Fixtures.P; Fixtures.Q] Fixtures.keyed
  = [ {| SaleItem.productId := "Q"; SaleItem.productName := "Torta de chocolate";
         SaleItem.quantity := 2; SaleItem.unitPrice := 5; SaleItem.subtotal := 10 |} ]
  ∧ DispatchClientCard.calculateTotal map_to_list [Fixtures.P; Fixtures.Q] Fixtures.keyed
    = 10
  ∧ Forall (λ item, 0 < SaleItem.quantity item)
      (DispatchClientCard.getProposedItems map_to_list [Fixtures.P; Fixtures.Q]
         Fixtures.keyed).
Proof.
  destruct (getProposedItems_are_valid map_to_list (λ q, reflexivity _)
              [Fixtures.P; Fixtures.Q] Fixtures.keyed)
    as (Hall & _ & _ & Htotal & _).
  split; [vm_compute; reflexivity|].
  split; [rewrite <- Htotal; vm_compute; reflexivity|].
  eapply Forall_impl; [exact Hall|]. intros item (Hq & _). exact Hq.
Defined.

(** Whatever plus and minus clicks a dispatch card receives, starting from
    no quantities, no keyed quantity is ever negative; one click sets the
    product's quantity to the old one (0 when none was keyed) plus the
    step, or to 0 when that is negative, and leaves the other products'
    quantities alone. *)
Theorem updateQty_never_goes_below_zero (clicks : list (string * Z)) productId delta :
  let quantities := foldl (λ q click, DispatchClientCard.updateQty click.1 click.2 q) ∅ clicks in
  map_Forall (λ _ q, 0 ≤ q) quantities
  ∧ DispatchClientCard.updateQty productId delta quantities !! productId
    = Some (Z.max 0 (default 0 (quantities !! productId) + delta))
  ∧ (∀ k, k ≠ productId →
       DispatchClientCard.updateQty productId delta quantities !! k = quantities !! k).
Proof.
  intros quantities. split_and!.
  - subst quantities.
    assert (H0 : map_Forall (λ (_ : string) q, 0 ≤ q) (∅ : gmap string Z))
      by apply map_Forall_empty.
    revert H0. generalize (∅ : gmap string Z).
    induction clicks as [|click clicks IH]; intros q0 H0; simpl; [assumption|].
    apply IH. unfold DispatchClientCard.updateQty.
    apply map_Forall_insert_2; [lia | assumption].
  - unfold DispatchClientCard.updateQty. apply lookup_insert_eq.
  - intros k Hk. unfold DispatchClientCard.updateQty. apply lookup_insert_ne. congruence.
Qed.

(** ** Editing a sale *)

(** Plus and minus in the edit dialog change one line only: the list keeps
    its length, the line at the index gets quantity + delta, or 0 when that
    is negative, and a subtotal of its unit price times the new quantity,
    with product and unit price as they were; every other line is as before.
    An index past the end of the list is a TypeError. *)
Theorem updateEditItemQty_edits_one_line idx delta prev :
  (length prev ≤ idx)%nat ∧ SalesAnalytics.updateEditItemQty idx delta prev
                             = Throw (JsError "TypeError")
  ∨ ∃ item item' next,
      prev !! idx = Some item
      ∧ SalesAnalytics.updateEditItemQty idx delta prev = Ok next
      ∧ length next = length prev
      ∧ next !! idx = Some item'
      ∧ SaleItem.quantity item' = Z.max 0 (SaleItem.quantity item + delta)
      ∧ SaleItem.subtotal item' = SaleItem.quantity item' * SaleItem.unitPrice item
      ∧ SaleItem.productId item' = SaleItem.productId item
      ∧ SaleItem.productName item' = SaleItem.productName item
      ∧ SaleItem.unitPrice item' = SaleItem.unitPrice item
      ∧ (∀ j, j ≠ idx → next !! j = prev !! j).
Proof.
  unfold SalesAnalytics.updateEditItemQty.
  destruct (prev !! idx) as [item|] eqn:Hidx.
  - right.
    exists item,
      {| SaleItem.productId := SaleItem.productId item;
         SaleItem.productName := SaleItem.productName item;
         SaleItem.quantity := Z.max 0 (SaleItem.quantity item + delta);
         SaleItem.unitPrice := SaleItem.unitPrice item;
         SaleItem.subtotal :=
           Z.max 0 (SaleItem.quantity item + delta) * SaleItem.unitPrice item |}.
    eexists. split; [reflexivity|]. split; [reflexivity|].
    split_and!; try reflexivity.
    + apply length_insert.
    + apply list_lookup_insert_eq. apply lookup_lt_Some in Hidx. assumption.
    + intros j Hj. apply list_lookup_insert_ne. congruence.
  - left. split; [|reflexivity]. apply lookup_ge_None. assumption.
Qed.

Lemma filter_positive_all_items (l : list SaleItem.t) :
  Forall (λ i, 0 < SaleItem.quantity i) l →
  filter (λ i, 0 < SaleItem.quantity i) l = l.
Proof.
  induction 1 as [|x l Hx Hl IH]; [reflexivity|].
  rewrite filter_cons_True by assumption. rewrite IH. reflexivity.
Qed.

Lemma filter_positive_app_zero (l1 l2 : list SaleItem.t) item :
  SaleItem.quantity item ≤ 0 →
  filter (λ i, 0 < SaleItem.quantity i) (l1 ++ item :: l2)%list
  = filter (λ i, 0 < SaleItem.quantity i) (l1 ++ l2)%list.
Proof.
  intros Hitem. rewrite !filter_app, filter_cons_False by lia. reflexivity.
Qed.

(** Taking a line of a sale down to zero in the edit dialog and saving
    removes that line from the sale on file, whatever the other lines are:
    the stored items are the other lines whose quantity is positive, in
    order, which is all the other lines when each of them has a positive
    quantity, and the stored total is the sum of their subtotals, added from
    zero in that order.  The stock the removed line took and the debt it
    raised stay as they are. *)
Theorem zeroing_a_line_and_saving_removes_it v0 s sale l1 item l2 delta :
  sales s !! Sale.id sale = Some sale →
  Sale.items sale = (l1 ++ item :: l2)%list →
  SaleItem.quantity item + delta ≤ 0 →
  ∃ v1 edited v2 s',
    SalesAnalytics.openEditModal sale (v0, s) = ((v1, s), Ok tt)
    ∧ SalesAnalytics.updateEditItemQty (length l1) delta (SalesAnalytics.editItems v1)
      = Ok edited
    ∧ SalesAnalytics.saveEditedSale
        ({| SalesAnalytics.selectedSale := SalesAnalytics.selectedSale v1;
            SalesAnalytics.isEditingSale := SalesAnalytics.isEditingSale v1;
            SalesAnalytics.editItems := edited |}, s) = ((v2, s'), Ok tt)
    ∧ Sale.items <$> sales s' !! Sale.id sale
      = Some (filter (λ i, 0 < SaleItem.quantity i) (l1 ++ l2)%list)
    ∧ Sale.totalAmount <$> sales s' !! Sale.id sale
      = Some (DBService.totalAmount_of
                (filter (λ i, 0 < SaleItem.quantity i) (l1 ++ l2)%list))
    ∧ (Forall (λ i, 0 < SaleItem.quantity i) (l1 ++ l2)%list →
       Sale.items <$> sales s' !! Sale.id sale = Some (l1 ++ l2)%list
       ∧ Sale.totalAmount <$> sales s' !! Sale.id sale
         = Some (DBService.totalAmount_of (l1 ++ l2)%list))
    ∧ (∀ k, k ≠ Sale.id sale → sales s' !! k = sales s !! k)
    ∧ products s' = products s
    ∧ clients s' = clients s.
Proof.
  intros Hrow Hitems Hzero.
  assert (Hidx : (l1 ++ item :: l2)%list !! length l1 = Some item).
  { rewrite lookup_app_r by lia. rewrite Nat.sub_diag. reflexivity. }
  eexists _, _, _, _.
  split; [reflexivity|]. simpl.
  split.
  { unfold SalesAnalytics.updateEditItemQty. rewrite Hitems, Hidx. reflexivity. }
  split.
  { unfold SalesAnalytics.saveEditedSale, bind, get_state, gets, db, set_state, modify.
    simpl. reflexivity. }
  simpl.
  assert (Hedit : <[length l1 :=
              {| SaleItem.productId := SaleItem.productId item;
                 SaleItem.productName := SaleItem.productName item;
                 SaleItem.quantity := Z.max 0 (SaleItem.quantity item + delta);
                 SaleItem.unitPrice := SaleItem.unitPrice item;
                 SaleItem.subtotal :=
                   Z.max 0 (SaleItem.quantity item + delta) * SaleItem.unitPrice item |}]>
            (l1 ++ item :: l2)%list
          = (l1 ++ {| SaleItem.productId := SaleItem.productId item;
                      SaleItem.productName := SaleItem.productName item;
                      SaleItem.quantity := Z.max 0 (SaleItem.quantity item + delta);
                      SaleItem.unitPrice := SaleItem.unitPrice item;
                      SaleItem.subtotal :=
                        Z.max 0 (SaleItem.quantity item + delta)
                        * SaleItem.unitPrice item |} :: l2)%list).
  { rewrite insert_app_r_alt by lia. rewrite Nat.sub_diag. reflexivity. }
  rewrite Hedit, filter_positive_app_zero by (simpl; lia).
  rewrite lookup_alter, decide_True, Hrow by reflexivity. simpl.
  split_and!; try reflexivity.
  - intros Hpos. rewrite filter_positive_all_items by assumption. split; reflexivity.
  - intros k Hk. rewrite lookup_alter_ne by congruence. reflexivity.
Qed.

Lemma zeroing_a_line_and_saving_removes_it_witness :
  ∃ edited v2 s',
    SalesAnalytics.updateEditItemQty 1 (-4) (Sale.items Fixtures.sale_1) = Ok edited
    ∧ SalesAnalytics.saveEditedSale
        ({| SalesAnalytics.selectedSale := Some Fixtures.sale_1;
            SalesAnalytics.isEditingSale := true;
            SalesAnalytics.editItems := edited |}, Fixtures.shop_with_sales)
      = ((v2, s'), Ok tt)
    ∧ Sale.items <$> sales s' !! Sale.id Fixtures.sale_1 = Some [Fixtures.two_Q]
    ∧ Sale.totalAmount <$> sales s' !! Sale.id Fixtures.sale_1 = Some 10
    ∧ products s' = products Fixtures.shop_with_sales.
Proof.
  destruct (zeroing_a_line_and_saving_removes_it Fixtures.editing_sale_1
              Fixtures.shop_with_sales Fixtures.sale_1 [Fixtures.two_Q] Fixtures.four_P
              [] (-4))
    as (v1 & edited & v2 & s' & Hopen & Hedit & Hsave & Hitems & Htotal & _ & _ & Hprod & _).
  - reflexivity.
  - reflexivity.
  - simpl. lia.
  - injection Hopen as <-. exists edited, v2, s'. split_and!; assumption.
Defined.

(** Saving from the edit dialog when there is nothing to save: with no sale
    selected the handler does nothing; with a selected sale whose id is not
    in the ledger it returns normally and the store is as before; and
    opening the dialog on a sale on file whose quantities are all positive
    and whose total is the sum of its subtotals, then saving without an
    edit, leaves the store exactly as it was. *)
Theorem saveEditedSale_with_nothing_to_save v s sale :
  (SalesAnalytics.selectedSale v = None →
   SalesAnalytics.saveEditedSale (v, s) = ((v, s), Ok tt))
  ∧ (SalesAnalytics.selectedSale v = Some sale → sales s !! Sale.id sale = None →
     ∃ v', SalesAnalytics.saveEditedSale (v, s) = ((v', s), Ok tt))
  ∧ (sales s !! Sale.id sale = Some sale →
     Forall (λ i, 0 < SaleItem.quantity i) (Sale.items sale) →
     Sale.totalAmount sale = sum_subtotal (Sale.items sale) →
     ∃ v1 v2,
       SalesAnalytics.openEditModal sale (v, s) = ((v1, s), Ok tt)
       ∧ SalesAnalytics.saveEditedSale (v1, s) = ((v2, s), Ok tt)).
Proof.
  split_and!.
  - intros Hsel.
    unfold SalesAnalytics.saveEditedSale, bind, get_state, gets, ret; simpl.
    rewrite Hsel. destruct v; reflexivity.
  - intros Hsel Hrow. eexists.
    unfold SalesAnalytics.saveEditedSale, bind, get_state, gets, db, set_state, modify.
    simpl. rewrite Hsel. simpl. do 2 f_equal.
    destruct s as [pr cl sa su]; unfold with_sales; simpl in *. f_equal.
    apply alter_missing. assumption.
  - intros Hrow Hpos Htotal. eexists _, _.
    split; [reflexivity|].
    unfold SalesAnalytics.saveEditedSale, bind, get_state, gets, db, set_state, modify.
    simpl. do 2 f_equal.
    destruct s as [pr cl sa su]; unfold with_sales; simpl in *. f_equal.
    apply map_eq; intros k. rewrite lookup_alter. case_decide; [subst k|reflexivity].
    rewrite Hrow. simpl. f_equal.
    assert (Hall : filter (λ i, 0 < SaleItem.quantity i) (Sale.items sale)
                   = Sale.items sale).
    { clear -Hpos. induction Hpos as [|x l Hx Hl IH]; [reflexivity|].
      rewrite filter_cons_True by assumption. rewrite IH. reflexivity. }
    rewrite Hall, patch_items_total.
    rewrite totalAmount_of_from, Z.add_0_l, <- Htotal.
    destruct sale; reflexivity.
Qed.

Lemma saveEditedSale_with_nothing_to_save_witness :
  ∃ v1 v2,
    SalesAnalytics.openEditModal Fixtures.sale_1
      (Fixtures.editing_sale_1, Fixtures.shop_with_sales)
    = ((v1, Fixtures.shop_with_sales), Ok tt)
    ∧ SalesAnalytics.saveEditedSale (v1, Fixtures.shop_with_sales)
      = ((v2, Fixtures.shop_with_sales), Ok tt).
Proof.
  apply (proj2 (proj2 (saveEditedSale_with_nothing_to_save Fixtures.editing_sale_1
                         Fixtures.shop_with_sales Fixtures.sale_1))).
  - reflexivity.
  - repeat constructor.
  - reflexivity.
Defined.

(** ** From the dispatch card to the ledger *)

Lemma quantity_of_absent pid items :
  (∀ item, item ∈ items → SaleItem.productId item ≠ pid) → quantity_of pid items = 0.
Proof.
  induction items as [|x items IH]; intros Habs; simpl; [reflexivity|].
  rewrite decide_False by (apply Habs, list_elem_of_here).
  rewrite IH; [reflexivity|]. intros item Hin. apply Habs, list_elem_of_further, Hin.
Qed.

(** Confirming a dispatch card for a client on file, under a sale id the
    ledger does not hold yet, raises the client's debt by exactly the total
    the card shows, takes from the stock of every product of the card's
    list with a positive keyed quantity exactly that quantity, and leaves
    the stock of every product the card does not propose as it is. *)
Theorem dispatching_the_card_charges_its_total
    (Object_entries : gmap string Z → list (string * Z))
    card_products quantities uuid now userId clientId client v s :
  (∀ q, Object_entries q ≡ₚ map_to_list q) →
  clients s !! clientId = Some client →
  sales s !! uuid = None →
  ∃ v' s',
    SellerView.handleDispatchConfirm uuid now userId clientId
      (DispatchClientCard.getProposedItems Object_entries card_products quantities) (v, s)
    = ((v', s'), Ok tt)
    ∧ Client.debt <$> clients s' !! clientId
      = Some (Client.debt client
              + DispatchClientCard.calculateTotal Object_entries card_products quantities)
    ∧ (∀ pid q prod,
         quantities !! pid = Some q → 0 < q →
         DispatchClientCard.find_product card_products pid = Some prod →
         products s' !! pid = take q <$> products s !! pid)
    ∧ (∀ pid,
         (∀ item,
            item ∈ DispatchClientCard.getProposedItems Object_entries card_products
                     quantities →
            SaleItem.productId item ≠ pid) →
         products s' !! pid = products s !! pid).
Proof.
  intros Hlists Hclient Hfresh.
  set (items := DispatchClientCard.getProposedItems Object_entries card_products quantities).
  eexists _, _. split.
  { unfold SellerView.handleDispatchConfirm, try_catch, bind, db. simpl.
    rewrite (createDispatchSale_run _ _ _ _ _ _ client) by assumption. reflexivity. }
  simpl. split_and!.
  - rewrite lookup_alter, decide_True, Hclient by reflexivity. simpl. f_equal. f_equal.
    subst items. rewrite totalAmount_of_sum, getProposedItems_lines, calculateTotal_lines.
    reflexivity.
  - intros pid q prod Hq Hpos Hfind. rewrite lookup_take_all.
    assert (Hnd : NoDup (SaleItem.productId <$> items)).
    { subst items. rewrite getProposedItems_lines.
      eapply sublist_NoDup; [|apply proposed_line_productIds].
      rewrite Hlists. apply NoDup_fst_map_to_list. }
    assert (Hin : {| SaleItem.productId := Product.id prod;
                     SaleItem.productName := Product.name prod;
                     SaleItem.quantity := q;
                     SaleItem.unitPrice := Product.priceWholesale prod;
                     SaleItem.subtotal := Product.priceWholesale prod * q |} ∈ items).
    { subst items. rewrite getProposedItems_lines.
      apply list_elem_of_bind. exists (pid, q). split.
      - unfold proposed_line. simpl. rewrite decide_True by assumption. rewrite Hfind.
        apply list_elem_of_here.
      - rewrite Hlists. apply elem_of_map_to_list. assumption. }
    apply find_product_Some in Hfind as [_ Hid].
    rewrite (quantity_of_once pid items _ Hnd Hin) by exact Hid. reflexivity.
  - intros pid Habs. rewrite lookup_take_all, quantity_of_absent by exact Habs.
    destruct (products s !! pid); simpl; [rewrite take_zero|]; reflexivity.
Qed.

Lemma dispatching_the_card_charges_its_total_witness :
  ∃ v' s',
    SellerView.handleDispatchConfirm Fixtures.uuid1 Fixtures.t1 "seller-1" "C"
      (DispatchClientCard.getProposedItems map_to_list [Fixtures.P; Fixtures.Q]
         Fixtures.keyed) (Fixtures.counter, Fixtures.shop) = ((v', s'), Ok tt)
    ∧ Client.debt <$> clients s' !! "C" = Some 30
    ∧ Product.stock <$> products s' !! "Q" = Some 6.
Proof.
  destruct (dispatching_the_card_charges_its_total map_to_list [Fixtures.P; Fixtures.Q]
              Fixtures.keyed Fixtures.uuid1 Fixtures.t1 "seller-1" "C" Fixtures.C
              Fixtures.counter Fixtures.shop)
    as (v' & s' & Hrun & Hdebt & Hstock & _).
  - intros q. reflexivity.
  - reflexivity.
  - reflexivity.
  - exists v', s'. split; [assumption|]. split.
    + rewrite Hdebt. vm_compute. reflexivity.
    + rewrite (Hstock "Q" 2 Fixtures.Q) by (reflexivity || lia). reflexivity.
Defined.

(** ** The catalog statements on the small shop *)

Lemma registerClientPayment_throws_iff_unknown_client_witness :
  DBService.registerClientPayment "nobody" 10 Fixtures.shop
  = (Fixtures.shop, Throw (JsError "Cliente no encontrado")).
Proof.
  destruct (registerClientPayment_throws_iff_unknown_client Fixtures.shop "nobody" 10)
    as (Hthrow & _ & Hsame).
  rewrite (surjective_pairing (DBService.registerClientPayment "nobody" 10 Fixtures.shop)).
  rewrite (proj2 Hthrow), Hsame by reflexivity. reflexivity.
Defined.

Lemma deleteProduct_keeps_history_witness :
  ∃ s1 s2,
    DBService.deleteProduct "P" Fixtures.shop_with_sales = (s1, Ok tt)
    ∧ products s1 !! "P" = None
    ∧ sales s1 = sales Fixtures.shop_with_sales
    ∧ DBService.createRetailSale Fixtures.uuid2 Fixtures.t2 [Fixtures.four_P] "seller-1" s1
      = (s2, Ok tt)
    ∧ products s2 = products s1.
Proof.
  destruct (deleteProduct_keeps_history Fixtures.shop_with_sales "P")
    as (s1 & Hrun & Hgone & _ & Hsales & _ & _ & Hlater).
  destruct (Hlater Fixtures.uuid2 Fixtures.t2 Fixtures.four_P "seller-1")
    as (s2 & Hsale & Hsame & _).
  - reflexivity.
  - rewrite Hsales. reflexivity.
  - exists s1, s2. split_and!; assumption.
Defined.

Lemma init_seeds_only_an_empty_catalog_witness :
  products (DBService.init [Fixtures.P; Fixtures.Q] Fixtures.empty_store).1 !! "Q"
  = Some Fixtures.Q
  ∧ (DBService.init [Fixtures.P; Fixtures.P] Fixtures.empty_store).1 = Fixtures.empty_store
  ∧ (DBService.init [Fixtures.G] Fixtures.shop).1 = Fixtures.shop.
Proof.
  split_and!.
  - destruct (init_seeds_only_an_empty_catalog [Fixtures.P; Fixtures.Q]
                Fixtures.empty_store) as (_ & _ & _ & _ & _ & Hseed & _).
    apply Hseed.
    + reflexivity.
    + apply (bool_decide_unpack _). vm_compute. exact I.
    + split; [|reflexivity]. apply list_elem_of_further, list_elem_of_here.
  - destruct (init_seeds_only_an_empty_catalog [Fixtures.P; Fixtures.P]
                Fixtures.empty_store) as (_ & _ & _ & _ & _ & _ & Hdup & _).
    apply Hdup; [reflexivity|].
    intros Hnd. apply NoDup_cons in Hnd as [Hnotin _]. apply Hnotin, list_elem_of_here.
  - destruct (init_seeds_only_an_empty_catalog [Fixtures.G] Fixtures.shop)
      as (_ & _ & _ & _ & Hkeep & _).
    apply Hkeep. intros Hempty.
    assert (Hp : products Fixtures.shop !! "P" = Some Fixtures.P) by reflexivity.
    rewrite Hempty, lookup_empty in Hp. discriminate.
Defined.
